(** * Machine Vision System: the dashboard client and the settings schema

    A shallow embedding of the dashboard page of the frontend (the React
    component [Home]: its state, its socket handlers, its HTTP calls and
    its test-mode simulation) and of the seed rows of the database schema,
    with the properties of the design document that concern them.

    React state is a record; every handler is an action of a state monad
    over that record, the mutable refs and the trace of what the handler
    asks of its host (console, socket, HTTP, timers, clipboard).  An
    [async] function is split at each [await]: one action up to the
    request, one for the fulfilled promise and one for the rejected one.

    The repository keeps two revisions of the page.  The embedding follows
    the later one, which has the test mode, the client-side log entries
    and the [ApiResponse] envelope; the earlier one has none of these and
    reads the settings at the top level of the response body. *)

From Stdlib Require Import ZArith List String Ascii Bool Lia.
From Stdlib Require Import PrimFloat Uint63 FloatOps SpecFloat DecimalString.
From ExtLib Require Import Structures.Monad Structures.MonadState.
From ExtLib Require Import Data.Monads.StateMonad.
Import ListNotations.
Import MonadNotation.

Set Warnings "-inexact-float,-register-all".
Local Open Scope string_scope.
Local Open Scope monad_scope.

(** ** Numbers

    A JavaScript [number] is an IEEE 754 binary64 value: a primitive float.
    Timestamps in milliseconds ([Date.now()]) are integers far below 2^53
    and are kept in [Z]. *)

Definition number := float.

(** [a >= b] and [a <= b] of JavaScript (false as soon as one side is NaN). *)
Definition geb (a b : number) : bool := PrimFloat.leb b a.
Definition leb (a b : number) : bool := PrimFloat.leb a b.

Definition numberOfZ (z : Z) : number := PrimFloat.of_uint63 (Uint63.of_Z z).

Definition digitOf (c : ascii) : option Z :=
  let n := Z.of_nat (nat_of_ascii c) in
  if ((48 <=? n) && (n <=? 57))%Z then Some (n - 48)%Z else None.

Fixpoint readDigits (s : string) (acc : Z) (count : nat) : Z * nat * string :=
  match s with
  | String c rest =>
      match digitOf c with
      | Some d => readDigits rest (acc * 10 + d)%Z (S count)
      | None => (acc, count, s)
      end
  | EmptyString => (acc, count, s)
  end.

(** [parseFloat] on the decimal literals a range control can hold: an
    optional sign, digits and an optional fraction, read as the nearest
    binary64 value (the quotient of two exactly represented integers is
    correctly rounded); NaN when no digit is found.  Exponents and
    [Infinity] do not occur in such values and are not read. *)
Definition parseFloat (s : string) : number :=
  let '(neg, s1) :=
    match s with
    | String "-" r => (true, r)
    | String "+" r => (false, r)
    | _ => (false, s)
    end in
  let '(ip, ni, s2) := readDigits s1 0%Z 0 in
  let '(m, nf) :=
    match s2 with
    | String "." r => let '(m, nf, _) := readDigits r ip 0 in (m, nf)
    | _ => (ip, 0)
    end in
  if (ni + nf =? 0)%nat then PrimFloat.nan
  else
    let v := (numberOfZ m / numberOfZ (10 ^ Z.of_nat nf))%float in
    if neg then (- v)%float else v.

(** ** Types of the page *)

Module LogMessage.
Record t := mk {
  timestamp : string;
  level : string;
  message : string;
  module : option string
}.
End LogMessage.

Module CaptureResult.
Record t := mk {
  success : bool;
  original_image : string;
  processed_image : string;
  result : string;
  confidence : number;
  processed_image_url : option string;
  error : option string
}.
End CaptureResult.

Module BackendStatus.
Record t := mk {
  camera_connected : bool;
  model_loaded : bool
}.
End BackendStatus.

Module ApiResponse.
Record t (T : Type) := mk {
  success : bool;
  data : option T;
  error : option string
}.
Arguments mk {T} _ _ _.
Arguments success {T} _.
Arguments data {T} _.
Arguments error {T} _.
End ApiResponse.

(** [SettingsData]: the page tests [confidence_threshold !== undefined], so
    that member is optional at run time.  [settings] is read without a
    test, as the interface declares it, but a body need not carry it:
    [None] is a [data] without [settings], on which the read of
    [confidence_threshold] throws. *)
Module SettingsData.
Record settings_t := mkSettings {
  confidence_threshold : option number
}.
Record t := mk {
  settings : option settings_t
}.
End SettingsData.

(** [a || b] on an optional string: [undefined] and the empty string are
    falsy. *)
Definition orElse (a : option string) (b : string) : string :=
  match a with
  | Some EmptyString => b
  | Some s => s
  | None => b
  end.

(** ** State, refs and requests to the host *)

Record State := mkState {
  isConnected : bool;
  logs : list LogMessage.t;
  isCapturing : bool;
  captureResult : option CaptureResult.t;
  confidenceThreshold : number;
  backendStatus : BackendStatus.t;
  processingTime : option Z;
  copySuccess : string;
  selectedTab : string;
  isTestMode : bool
}.

Record Refs := mkRefs {
  captureStartTime : option Z
}.

(** The callbacks handed to [setTimeout]. *)
Inductive Timer :=
| TimerSimulatedStatus
| TimerSimulatedCapture
| TimerCopyReset.

Inductive Effect :=
| ConsoleLog (label : string)
| ConsoleError (label : string)
| SocketEmit (event : string)
| HttpGetSettings
| HttpPostCapture (confidence_threshold : number)
| HttpPostSettings (confidence_threshold : number)
| SetTimeout (callback : Timer) (ms : Z)
| ClipboardWriteText (text : string).

Record World := mkWorld {
  st : State;
  refs : Refs;
  effects : list Effect
}.

(** [useState(...)] initial values and [useRef(null)]. *)
Definition initialState : State :=
  {| isConnected := false;
     logs := [];
     isCapturing := false;
     captureResult := None;
     confidenceThreshold := 0.5%float;
     backendStatus := BackendStatus.mk false false;
     processingTime := None;
     copySuccess := "";
     selectedTab := "original";
     isTestMode := false |}.

Definition initialWorld : World :=
  {| st := initialState;
     refs := {| captureStartTime := None |};
     effects := [] |}.

(** ** The handler monad *)

Definition Handler := state World.

Definition run {A} (h : Handler A) (w : World) : World := execState h w.

(** The values a handler closes over: those of the render it was created in. *)
Definition render : Handler State := gets st.

Definition setState (f : State -> State) : Handler unit :=
  modify (fun w => mkWorld (f (st w)) (refs w) (effects w)) ;; ret tt.

Definition perform (e : Effect) : Handler unit :=
  modify (fun w => mkWorld (st w) (refs w) (effects w ++ [e])%list) ;; ret tt.

Definition getCaptureStartTime : Handler (option Z) :=
  gets (fun w => captureStartTime (refs w)).

Definition setCaptureStartTime (v : option Z) : Handler unit :=
  modify (fun w => mkWorld (st w) (mkRefs v) (effects w)) ;; ret tt.

Definition setIsConnected (v : bool) : Handler unit :=
  setState (fun s => mkState v (logs s) (isCapturing s) (captureResult s)
    (confidenceThreshold s) (backendStatus s) (processingTime s)
    (copySuccess s) (selectedTab s) (isTestMode s)).

(** [setLogs] takes an updater, as in [setLogs(prevLogs => ...)]; a plain
    value is the constant updater. *)
Definition setLogs (f : list LogMessage.t -> list LogMessage.t) : Handler unit :=
  setState (fun s => mkState (isConnected s) (f (logs s)) (isCapturing s)
    (captureResult s) (confidenceThreshold s) (backendStatus s)
    (processingTime s) (copySuccess s) (selectedTab s) (isTestMode s)).

Definition setIsCapturing (v : bool) : Handler unit :=
  setState (fun s => mkState (isConnected s) (logs s) v (captureResult s)
    (confidenceThreshold s) (backendStatus s) (processingTime s)
    (copySuccess s) (selectedTab s) (isTestMode s)).

Definition setCaptureResult (v : option CaptureResult.t) : Handler unit :=
  setState (fun s => mkState (isConnected s) (logs s) (isCapturing s) v
    (confidenceThreshold s) (backendStatus s) (processingTime s)
    (copySuccess s) (selectedTab s) (isTestMode s)).

Definition setConfidenceThreshold (v : number) : Handler unit :=
  setState (fun s => mkState (isConnected s) (logs s) (isCapturing s)
    (captureResult s) v (backendStatus s) (processingTime s)
    (copySuccess s) (selectedTab s) (isTestMode s)).

Definition setBackendStatus (v : BackendStatus.t) : Handler unit :=
  setState (fun s => mkState (isConnected s) (logs s) (isCapturing s)
    (captureResult s) (confidenceThreshold s) v (processingTime s)
    (copySuccess s) (selectedTab s) (isTestMode s)).

Definition setProcessingTime (v : option Z) : Handler unit :=
  setState (fun s => mkState (isConnected s) (logs s) (isCapturing s)
    (captureResult s) (confidenceThreshold s) (backendStatus s) v
    (copySuccess s) (selectedTab s) (isTestMode s)).

Definition setCopySuccess (v : string) : Handler unit :=
  setState (fun s => mkState (isConnected s) (logs s) (isCapturing s)
    (captureResult s) (confidenceThreshold s) (backendStatus s)
    (processingTime s) v (selectedTab s) (isTestMode s)).

Definition setSelectedTab (v : string) : Handler unit :=
  setState (fun s => mkState (isConnected s) (logs s) (isCapturing s)
    (captureResult s) (confidenceThreshold s) (backendStatus s)
    (processingTime s) (copySuccess s) v (isTestMode s)).

Definition setIsTestMode (v : bool) : Handler unit :=
  setState (fun s => mkState (isConnected s) (logs s) (isCapturing s)
    (captureResult s) (confidenceThreshold s) (backendStatus s)
    (processingTime s) (copySuccess s) (selectedTab s) v).

(** [addLog]: [setLogs(prevLogs => [...prevLogs, logMessage])]. *)
Definition addLog (logMessage : LogMessage.t) : Handler unit :=
  setLogs (fun prevLogs => (prevLogs ++ [logMessage])%list).

(** Appending a batch of entries one by one. *)
Definition addLogs (ms : list LogMessage.t) (w : World) : World :=
  fold_left (fun w' m => run (addLog m) w') ms w.

(** [loggedError w w']: going from [w] to [w'] appended one entry of level
    ERROR to the log list. *)
Definition loggedError (w w' : World) : Prop :=
  exists entry,
    logs (st w') = (logs (st w) ++ [entry])%list
    /\ LogMessage.level entry = "ERROR".

(** ** Rendering numbers

    [x.toFixed(d)] picks the integer [n] with [n / 10^d] nearest to the
    exact value of [x], the larger one on a tie, and writes it with [d]
    fraction digits.  [decimalToFixed] computes it on the exact value
    [m * 2^e] of a finite float; it is the built-in for magnitudes below
    1e21 (above, the built-in switches to exponent notation). *)

Definition digitsOf (n : Z) : string :=
  NilZero.string_of_uint (N.to_uint (Z.to_N n)).

Fixpoint zeros (k : nat) : string :=
  match k with
  | O => ""
  | S k' => String "0" (zeros k')
  end.

Definition roundHalfUp (m : positive) (e : Z) (d : nat) : Z :=
  let scaled := (Z.pos m * 10 ^ Z.of_nat d)%Z in
  if (0 <=? e)%Z then (scaled * 2 ^ e)%Z
  else ((2 * scaled + 2 ^ (- e)) / 2 ^ (1 - e))%Z.

Definition fixedDigits (n : Z) (d : nat) : string :=
  let raw := digitsOf n in
  let padded := zeros (S d - String.length raw) ++ raw in
  let k := (String.length padded - d)%nat in
  if (d =? 0)%nat then padded
  else substring 0 k padded ++ "." ++ substring k d padded.

Definition decimalToFixed (x : number) (d : nat) : string :=
  match Prim2SF x with
  | S754_nan => "NaN"
  | S754_infinity s => if s then "-Infinity" else "Infinity"
  | S754_zero _ => fixedDigits 0 d
  | S754_finite s m e =>
      (if s then "-" else "") ++ fixedDigits (roundHalfUp m e d) d
  end.

(** ** The threshold slider of the page

    [<input type="range" min="0" max="1" step="0.01">]: the control holds
    the value [min + k * step], capped at [max], written as a decimal
    literal without trailing zeros; [rangeValue k] is that literal for the
    [k]-th stop. *)

Definition digitChar (d : nat) : ascii := ascii_of_nat (48 + d).

Definition rangeValue (k : nat) : string :=
  if (k =? 0)%nat then "0"
  else if (k <? 100)%nat then
    "0." ++ String (digitChar (k / 10))
              (if (k mod 10 =? 0)%nat then ""
               else String (digitChar (k mod 10)) "")
  else "1".

(** ** Response bodies on the wire

    A response body is a JSON value; the page reads it through the
    interfaces [ApiResponse<T>] and [SettingsData].  [member] is a property
    read ([None] is [undefined]); the [as...] functions give the view of a
    body through an interface, members the interface does not name being
    invisible to the page. *)

Inductive json :=
| JNull
| JBool (b : bool)
| JNumber (n : number)
| JString (s : string)
| JArray (items : list json)
| JObject (members : list (string * json)).

(** With a repeated key the last member wins, as in [JSON.parse]. *)
Fixpoint member (k : string) (ms : list (string * json)) : option json :=
  match ms with
  | [] => None
  | (k', v) :: rest =>
      match member k rest with
      | Some w => Some w
      | None => if String.eqb k k' then Some v else None
      end
  end.

(** A [data] whose [settings] is missing or [null], or which is no object
    at all, cannot be read further; a [settings] that is a string, a
    number, a boolean or an array has no [confidence_threshold]. *)
Definition asSettingsData (j : json) : option SettingsData.t :=
  match j with
  | JNull => None
  | JObject ms =>
      match member "settings" ms with
      | None | Some JNull => Some (SettingsData.mk None)
      | Some (JObject ss) =>
          match member "confidence_threshold" ss with
          | None =>
              Some (SettingsData.mk (Some (SettingsData.mkSettings None)))
          | Some (JNumber v) =>
              Some (SettingsData.mk (Some (SettingsData.mkSettings (Some v))))
          | Some _ => None
          end
      | Some _ =>
          Some (SettingsData.mk (Some (SettingsData.mkSettings None)))
      end
  | _ => Some (SettingsData.mk None)
  end.

Definition asOptionalString (o : option json) : option (option string) :=
  match o with
  | None => Some None
  | Some (JString s) => Some (Some s)
  | Some _ => None
  end.

(** [data?: T]: absent (or [null], which [?.] treats alike) or a [T]. *)
Definition asApiResponse {T} (asT : json -> option T) (j : json)
    : option (ApiResponse.t T) :=
  match j with
  | JObject ms =>
      match member "success" ms, asOptionalString (member "error" ms) with
      | Some (JBool ok), Some err =>
          match member "data" ms with
          | None | Some JNull => Some (ApiResponse.mk ok None err)
          | Some d =>
              match asT d with
              | Some x => Some (ApiResponse.mk ok (Some x) err)
              | None => None
              end
          end
      | _, _ => None
      end
  | _ => None
  end.

(** The body the page expects, [{success, data: {settings: {confidence_threshold}}}]. *)
Definition envelopedSettings (v : number) : json :=
  JObject [("success", JBool true);
           ("data", JObject [("settings",
              JObject [("confidence_threshold", JNumber v)])])].

(** The body of the design document, [{success, settings: {confidence_threshold}}]. *)
Definition topLevelSettings (v : number) : json :=
  JObject [("success", JBool true);
           ("settings", JObject [("confidence_threshold", JNumber v)])].

(** ** The database schema

    The seed statement of the schema, [INSERT OR IGNORE INTO settings (key,
    value, description) VALUES ...], on a database in which the [settings]
    table exists as the schema declares it, with text in its three
    columns. *)

Module Schema.

Record SettingRow := mkRow {
  id : Z;
  key : string;
  value : string;
  description : string
}.

Definition SettingsTable := list SettingRow.

(** What the statement reads and writes: the rows of [settings] and the
    entry that [AUTOINCREMENT] keeps for the table in [sqlite_sequence]
    ([0] when there is none yet). *)
Record Database := mkDatabase {
  settings : SettingsTable;
  sqlite_sequence : Z
}.

(** The largest rowid there is, [2^63 - 1]. *)
Definition maxRowid : Z := 9223372036854775807.

(** The largest id in the table, [0] for an empty table. *)
Definition largestId (t : SettingsTable) : Z :=
  match t with
  | [] => 0%Z
  | r :: rest => fold_left (fun m x => Z.max m (id x)) rest (id r)
  end.

(** The largest id ever used, as the engine knows it. *)
Definition highWater (db : Database) : Z :=
  Z.max (sqlite_sequence db) (largestId (settings db)).

(** [id INTEGER PRIMARY KEY AUTOINCREMENT]: one more than the largest id
    ever used, and none at all once [2^63 - 1] has been used. *)
Definition nextId (db : Database) : option Z :=
  if (highWater db <? maxRowid)%Z then Some (highWater db + 1)%Z else None.

Inductive Outcome :=
| Done (db : Database)
| SQLITE_FULL.

(** One row of [INSERT OR IGNORE] under [key TEXT UNIQUE].  The id is
    taken before the key is checked: a row that is ignored uses one up,
    and a row for which none is left fails even if it would be ignored. *)
Definition insertOrIgnore (k v d : string) (db : Database) : Outcome :=
  match nextId db with
  | None => SQLITE_FULL
  | Some i =>
      if existsb (fun r => String.eqb (key r) k) (settings db)
      then Done (mkDatabase (settings db) i)
      else Done (mkDatabase (settings db ++ [mkRow i k v d])%list i)
  end.

Definition defaultSettings : list (string * string * string) :=
  [("camera_device_id", "0", "ID of the camera device to use");
   ("model_path", "models/default.pt", "Path to the inference model");
   ("confidence_threshold", "0.5",
    "Minimum confidence threshold for detections")].

Fixpoint insertRows (rows : list (string * string * string))
    (db : Database) : Outcome :=
  match rows with
  | [] => Done db
  | (k, v, d) :: rest =>
      match insertOrIgnore k v d db with
      | Done db' => insertRows rest db'
      | SQLITE_FULL => SQLITE_FULL
      end
  end.

(** The statement inserts its three rows in order, or fails as a whole. *)
Definition seedStatement (db : Database) : Outcome :=
  insertRows defaultSettings db.

(** The database after the statement: a failed statement is rolled back
    and leaves the database as it was. *)
Definition applySchema (db : Database) : Database :=
  match seedStatement db with
  | Done db' => db'
  | SQLITE_FULL => db
  end.

(** The tables as [CREATE TABLE] leaves them. *)
Definition emptyDatabase : Database := mkDatabase [] 0.

Definition freshDatabase : SettingsTable :=
  settings (applySchema emptyDatabase).

Definition lookup (k : string) (t : SettingsTable) : option string :=
  match find (fun r => String.eqb (key r) k) t with
  | Some r => Some (value r)
  | None => None
  end.

(** How many ids are left to give out. *)
Definition idsLeft (db : Database) : Z := (maxRowid - highWater db)%Z.

End Schema.

(** ** The post-processor of the design document *)

Module PostProcessor.

(** Modelled from the spec: the verdict of a result, "verdict in {PASS,
    FAIL}"; the post-processor is a backend component and is not among
    the sources. *)
Inductive Verdict :=
| PASS
| FAIL.

(** Modelled from the spec: [evaluate(rawOutput, threshold)], of which the
    spec says "verdict = PASS if the model's reported confidence >=
    threshold, else FAIL (tie at exactly the threshold counts as PASS)". *)
Definition evaluate (confidence threshold : number) : Verdict :=
  if geb confidence threshold then PASS else FAIL.

(** Modelled from the spec: the text of a verdict, as the [result] member
    of a capture result carries it. *)
Definition verdictText (v : Verdict) : string :=
  match v with
  | PASS => "PASS"
  | FAIL => "FAIL"
  end.

End PostProcessor.

(** ** The settings endpoint of the middleware *)

Module Middleware.

(** Modelled from the spec: the error of the taxonomy that the endpoint
    can answer with. *)
Inductive Error :=
| InvalidArgument.

(** Modelled from the spec: the reply [{success, error?}] of the endpoint. *)
Record Reply := mkReply {
  success : bool;
  error : option Error
}.

(** Modelled from the spec: the settings store of the middleware, "a small
    key/value configuration cache"; the middleware is not among the
    sources. *)
Definition Settings := string -> option number.

(** Modelled from the spec: the capability [saveSetting(key, value)]. *)
Definition saveSetting (k : string) (v : number) (store : Settings)
    : Settings :=
  fun k' => if String.eqb k' k then Some v else store k'.

(** Modelled from the spec: the test "threshold in [0,1]" of the endpoint. *)
Definition inUnitInterval (v : number) : bool :=
  leb 0%float v && leb v 1%float.

(** Modelled from the spec: the handler of [POST /api/settings], which
    belongs to the middleware and is not among the sources; it "validates
    threshold in [0,1], else fails with InvalidArgument", and a rejected
    request performs "no state mutation". *)
Definition postSettings (confidence_threshold : number) (store : Settings)
    : Reply * Settings :=
  if inUnitInterval confidence_threshold then
    (mkReply true None,
     saveSetting "confidence_threshold" confidence_threshold store)
  else
    (mkReply false (Some InvalidArgument), store).

End Middleware.

(** ** The earlier revision of the page

    The earlier page has six state variables, no refs, no test mode and no
    log entries of its own.  Its HTTP responses are untyped: the page reads
    members off whatever JSON value the body is, and a read on [null] or
    [undefined] throws into the [catch] of the handler. *)

Module Earlier.

Module LogMessage.
Record t := mk {
  timestamp : string;
  level : string;
  message : string
}.
End LogMessage.

Module CaptureResult.
Record t := mk {
  success : bool;
  original_image : string;
  processed_image : string;
  result : string;
  confidence : number;
  processed_image_url : string;
  error : option string
}.
End CaptureResult.

(** The outcome of reading an expression: [undefined], a JSON value, or a
    thrown [TypeError]. *)
Inductive Read :=
| Undefined
| Value (j : json)
| Throws.

(** [o.k] for the member names the page reads ([success], [settings],
    [confidence_threshold]), none of which a string, a number, a boolean
    or an array has. *)
Definition getProp (o : Read) (k : string) : Read :=
  match o with
  | Throws => Throws
  | Undefined => Throws
  | Value JNull => Throws
  | Value (JObject ms) =>
      match member k ms with
      | Some v => Value v
      | None => Undefined
      end
  | Value _ => Undefined
  end.

(** Truthiness of a value. *)
Definition truthy (r : Read) : bool :=
  match r with
  | Undefined | Throws => false
  | Value JNull => false
  | Value (JBool b) => b
  | Value (JNumber n) =>
      if PrimFloat.eqb n n then negb (PrimFloat.eqb n 0%float) else false
  | Value (JString s) => negb (String.eqb s "")
  | Value (JArray _) | Value (JObject _) => true
  end.

(** The threshold is whatever the last setter call gave it: a number from
    the slider, any JSON value from the settings response. *)
Record State := mkState {
  isConnected : bool;
  logs : list LogMessage.t;
  isCapturing : bool;
  captureResult : option CaptureResult.t;
  confidenceThreshold : json;
  isSavingThreshold : bool
}.

Inductive Effect :=
| ConsoleLog (label : string)
| ConsoleError (label : string)
| HttpGetSettings
| HttpPostCapture
| HttpPostSettings (confidence_threshold : json).

Record World := mkWorld {
  st : State;
  effects : list Effect
}.

Definition initialState : State :=
  {| isConnected := false;
     logs := [];
     isCapturing := false;
     captureResult := None;
     confidenceThreshold := JNumber 0.5%float;
     isSavingThreshold := false |}.

Definition initialWorld : World :=
  {| st := initialState; effects := [] |}.

Definition Handler := state World.

Definition run {A} (h : Handler A) (w : World) : World := execState h w.

Definition render : Handler State := gets st.

Definition setState (f : State -> State) : Handler unit :=
  modify (fun w => mkWorld (f (st w)) (effects w)) ;; ret tt.

Definition perform (e : Effect) : Handler unit :=
  modify (fun w => mkWorld (st w) (effects w ++ [e])%list) ;; ret tt.

Definition setIsConnected (v : bool) : Handler unit :=
  setState (fun s => mkState v (logs s) (isCapturing s) (captureResult s)
    (confidenceThreshold s) (isSavingThreshold s)).

Definition setLogs (f : list LogMessage.t -> list LogMessage.t)
    : Handler unit :=
  setState (fun s => mkState (isConnected s) (f (logs s)) (isCapturing s)
    (captureResult s) (confidenceThreshold s) (isSavingThreshold s)).

Definition setIsCapturing (v : bool) : Handler unit :=
  setState (fun s => mkState (isConnected s) (logs s) v (captureResult s)
    (confidenceThreshold s) (isSavingThreshold s)).

Definition setCaptureResult (v : option CaptureResult.t) : Handler unit :=
  setState (fun s => mkState (isConnected s) (logs s) (isCapturing s) v
    (confidenceThreshold s) (isSavingThreshold s)).

Definition setConfidenceThreshold (v : json) : Handler unit :=
  setState (fun s => mkState (isConnected s) (logs s) (isCapturing s)
    (captureResult s) v (isSavingThreshold s)).

Definition setIsSavingThreshold (v : bool) : Handler unit :=
  setState (fun s => mkState (isConnected s) (logs s) (isCapturing s)
    (captureResult s) (confidenceThreshold s) v).

(** *** Socket listeners *)

Definition onConnect : Handler unit :=
  setIsConnected true ;;
  perform (ConsoleLog "Connected to WebSocket").

Definition onDisconnect : Handler unit :=
  setIsConnected false ;;
  perform (ConsoleLog "Disconnected from WebSocket").

Definition onLogMessage (logMessage : LogMessage.t) : Handler unit :=
  setLogs (fun prevLogs => (prevLogs ++ [logMessage])%list).

Definition onLogHistory (data_logs : list LogMessage.t) : Handler unit :=
  setLogs (fun _ => data_logs).

Definition onCaptureResult (result : CaptureResult.t) : Handler unit :=
  setCaptureResult (Some result) ;;
  setIsCapturing false.

(** *** Loading the settings *)

Definition loadSettings : Handler unit :=
  perform HttpGetSettings.

Definition loadSettings_catch : Handler unit :=
  perform (ConsoleError "Error loading settings:").

(** [response.data.success &&
     response.data.settings.confidence_threshold !== undefined]. *)
Definition loadSettings_fulfilled (response_data : json) : Handler unit :=
  match getProp (Value response_data) "success" with
  | Throws => loadSettings_catch
  | success =>
      if truthy success then
        match getProp (getProp (Value response_data) "settings")
                "confidence_threshold" with
        | Throws => loadSettings_catch
        | Undefined => ret tt
        | Value v => setConfidenceThreshold v
        end
      else ret tt
  end.

Definition loadSettings_rejected : Handler unit :=
  loadSettings_catch.

(** *** Triggering a capture *)

Definition handleCapture : Handler unit :=
  setIsCapturing true ;;
  perform HttpPostCapture.

Definition handleCapture_catch : Handler unit :=
  perform (ConsoleError "Error capturing image:") ;;
  setIsCapturing false.

Definition handleCapture_fulfilled (response_data : json) : Handler unit :=
  match getProp (Value response_data) "success" with
  | Throws => handleCapture_catch
  | success =>
      if negb (truthy success) then setIsCapturing false else ret tt
  end.

Definition handleCapture_rejected : Handler unit :=
  handleCapture_catch.

(** [disabled={isCapturing || !isConnected}] on the trigger button. *)
Definition triggerDisabled (s : State) : bool :=
  isCapturing s || negb (isConnected s).

(** *** The threshold *)

Definition handleThresholdChange (value : number) : Handler unit :=
  setConfidenceThreshold (JNumber value).

(** [saveThreshold] up to its [await]; it posts the threshold of the render
    it closes over. *)
Definition saveThreshold : Handler unit :=
  r <- render ;;
  setIsSavingThreshold true ;;
  perform (HttpPostSettings (confidenceThreshold r)).

(** The rest of the [try] block, its [catch], and the [finally]. *)
Definition saveThreshold_fulfilled (response_data : json) : Handler unit :=
  match getProp (Value response_data) "success" with
  | Throws => perform (ConsoleError "Error saving threshold:")
  | success =>
      if negb (truthy success)
      then perform (ConsoleError "Error saving threshold:")
      else ret tt
  end ;;
  setIsSavingThreshold false.

Definition saveThreshold_rejected : Handler unit :=
  perform (ConsoleError "Error saving threshold:") ;;
  setIsSavingThreshold false.

(** *** Rendering a log entry *)

Definition startsWith (s prefix : string) : bool := String.prefix prefix s.

Fixpoint includes (s needle : string) : bool :=
  if String.prefix needle s then true
  else
    match s with
    | EmptyString => false
    | String _ rest => includes rest needle
    end.

(** The [if]/[else if] chain of [renderLogEntry] on [log.message]. *)
Definition moduleType (message : string) : string :=
  if startsWith message "Middleware:" then "middleware"
  else if includes message "Backend:" || includes message "backend"
  then "backend"
  else if includes message "Frontend:" || includes message "frontend"
  then "frontend"
  else if includes message "Camera:" || includes message "camera"
          || includes message "frame"
  then "camera"
  else if includes message "Processing:" || includes message "processing"
          || includes message "processed"
  then "processing"
  else if includes message "inference" || includes message "Inference"
  then "inference"
  else if includes message "WebSocket" || includes message "Socket"
  then "socket"
  else if includes message "Flask" then "server"
  else "unknown".

(** Whether one of the tests of the chain holds of a message. *)
Definition mentionsModule (message : string) : bool :=
  startsWith message "Middleware:"
  || includes message "Backend:" || includes message "backend"
  || includes message "Frontend:" || includes message "frontend"
  || includes message "Camera:" || includes message "camera"
  || includes message "frame"
  || includes message "Processing:" || includes message "processing"
  || includes message "processed"
  || includes message "inference" || includes message "Inference"
  || includes message "WebSocket" || includes message "Socket"
  || includes message "Flask".

(** *** The page as a machine *)

Inductive Event :=
| SocketConnect
| SocketDisconnect
| SocketLogMessage (logMessage : LogMessage.t)
| SocketLogHistory (data_logs : list LogMessage.t)
| SocketCaptureResult (result : CaptureResult.t)
| Mounted
| SettingsFulfilled (response_data : json)
| SettingsRejected
| CaptureClicked
| CaptureFulfilled (response_data : json)
| CaptureRejected
| SliderChanged (value : number)
| SliderAfterChange
| SaveFulfilled (response_data : json)
| SaveRejected.

Definition dispatch (e : Event) : Handler unit :=
  match e with
  | SocketConnect => onConnect
  | SocketDisconnect => onDisconnect
  | SocketLogMessage m => onLogMessage m
  | SocketLogHistory ls => onLogHistory ls
  | SocketCaptureResult r => onCaptureResult r
  | Mounted => loadSettings
  | SettingsFulfilled body => loadSettings_fulfilled body
  | SettingsRejected => loadSettings_rejected
  | CaptureClicked => handleCapture
  | CaptureFulfilled body => handleCapture_fulfilled body
  | CaptureRejected => handleCapture_rejected
  | SliderChanged value => handleThresholdChange value
  | SliderAfterChange => saveThreshold
  | SaveFulfilled body => saveThreshold_fulfilled body
  | SaveRejected => saveThreshold_rejected
  end.

Definition step (w : World) (e : Event) : World := run (dispatch e) w.

Definition steps (es : list Event) (w : World) : World := fold_left step es w.

Definition carriesServerLogs (e : Event) : bool :=
  match e with
  | SocketLogMessage _ | SocketLogHistory _ => true
  | _ => false
  end.

End Earlier.

(** ** The component [Home] *)

(** The placeholder image of the simulated capture. *)
Definition PLACEHOLDER_IMAGE : string :=
  "iVBORw0KGgoAAAANSUhEUgAAASwAAACoCAMAAABt9SM9AAAAA1BMVEX///+nxBvIAAAAR0lEQVR4nO3BAQEAAACCIP+vbkhAAQAAAAAAAAAAAAAAAAAAAAAAAAAAAAAAAAAAAAAAAAAAAAAAAAAAAAAAAAAAAAAAAO8GxYgAAb0jQ/cAAAAASUVORK5CYII=".

(** The object literal [mockResult] of the test-mode branch. *)
Definition mockResult : CaptureResult.t :=
  {| CaptureResult.success := true;
     CaptureResult.original_image := PLACEHOLDER_IMAGE;
     CaptureResult.processed_image := PLACEHOLDER_IMAGE;
     CaptureResult.result := "PASS";
     CaptureResult.confidence := 0.85%float;
     CaptureResult.processed_image_url := None;
     CaptureResult.error := None |}.

Section Home.

(** [Number.prototype.toFixed], a built-in of the host: [toFixed x d] is
    [x.toFixed(d)]. *)
Variable toFixed : number -> nat -> string.

(** *** Socket listeners *)

(** [on('connect')]; [now] is [new Date().toISOString()]. *)
Definition onConnect (now : string) : Handler unit :=
  setIsConnected true ;;
  perform (ConsoleLog "Connected to WebSocket") ;;
  addLog (LogMessage.mk now "INFO" "Connected to server" (Some "frontend")) ;;
  perform (SocketEmit "get_status") ;;
  perform (SocketEmit "get_logs").

Definition onDisconnect (now : string) : Handler unit :=
  setIsConnected false ;;
  perform (ConsoleLog "Disconnected from WebSocket") ;;
  addLog (LogMessage.mk now "WARNING" "Disconnected from server"
            (Some "frontend")).

(** [on('connect_error')]; [errorMessage] is [error.message]. *)
Definition onConnectError (errorMessage now : string) : Handler unit :=
  perform (ConsoleError "WebSocket connection error:") ;;
  setIsConnected false ;;
  setIsTestMode true ;;
  addLog (LogMessage.mk now "ERROR"
            ("WebSocket connection error: " ++ errorMessage
             ++ ". Switched to test mode.")
            (Some "frontend")) ;;
  perform (SetTimeout TimerSimulatedStatus 1000).

(** The callback of that timer. *)
Definition simulatedStatus : Handler unit :=
  setBackendStatus (BackendStatus.mk true true).

Definition onStatusUpdate (status : BackendStatus.t) : Handler unit :=
  setBackendStatus status ;;
  perform (ConsoleLog "Backend status updated:").

Definition onLogMessage (logMessage : LogMessage.t) : Handler unit :=
  addLog logMessage.

(** [on('log_history')]: [setLogs(data.logs)]. *)
Definition onLogHistory (data_logs : list LogMessage.t) : Handler unit :=
  setLogs (fun _ => data_logs).

(** [on('capture_started')]; [nowMs] is [Date.now()]. *)
Definition onCaptureStarted (nowMs : Z) : Handler unit :=
  setCaptureStartTime (Some nowMs) ;;
  perform (ConsoleLog "Capture process started").

(** A ref holding a time is truthy unless it is [null] or [0]. *)
Definition truthyTime (t : option Z) : bool :=
  match t with
  | Some v => negb (v =? 0)%Z
  | None => false
  end.

(** [on('capture_result')]. *)
Definition onCaptureResult (result : CaptureResult.t) (nowMs : Z)
    (now : string) : Handler unit :=
  perform (ConsoleLog "Received capture result:") ;;
  start <- getCaptureStartTime ;;
  (if truthyTime start then
     setProcessingTime (Some (nowMs - match start with Some v => v | None => 0 end)%Z) ;;
     setCaptureStartTime None
   else ret tt) ;;
  setCaptureResult (Some result) ;;
  setIsCapturing false ;;
  addLog (LogMessage.mk now
            (if CaptureResult.success result then "SUCCESS" else "ERROR")
            (if CaptureResult.success result
             then "Capture completed successfully. Result: "
                  ++ CaptureResult.result result ++ " (Confidence: "
                  ++ toFixed (CaptureResult.confidence result * 100)%float 2
                  ++ "%)"
             else "Capture failed: "
                  ++ orElse (CaptureResult.error result) "Unknown error")
            (Some "capture")).

(** *** Loading the settings *)

Definition loadSettings : Handler unit :=
  perform HttpGetSettings.

(** The [catch] block, which a rejected request reaches. *)
Definition loadSettings_rejected (now : string) : Handler unit :=
  perform (ConsoleError "Error loading settings:") ;;
  setIsTestMode true ;;
  addLog (LogMessage.mk now "ERROR"
            "Failed to load settings. Switched to test mode."
            (Some "frontend")).

(** The [try] block after the [await], on the body [response.data].  Two
    reads can throw, and a throw lands in the [catch] block: the read of
    [success] on a [null] body ([None]), and, once [success] is truthy,
    the read of [confidence_threshold] on a [data] without [settings]. *)
Definition loadSettings_fulfilled
    (response_data : option (ApiResponse.t SettingsData.t))
    (now : string) : Handler unit :=
  match response_data with
  | None => loadSettings_rejected now
  | Some body =>
      if ApiResponse.success body then
        match ApiResponse.data body with
        | Some d =>
            match SettingsData.settings d with
            | Some s =>
                match SettingsData.confidence_threshold s with
                | Some v =>
                    setConfidenceThreshold v ;;
                    perform (ConsoleLog "Loaded confidence threshold:")
                | None => ret tt
                end
            | None => loadSettings_rejected now
            end
        | None => ret tt
        end
      else ret tt
  end.

(** *** The log panel *)

Definition newline : string := String (ascii_of_nat 10) "".

Definition logLine (log : LogMessage.t) : string :=
  "[" ++ LogMessage.timestamp log ++ "] [" ++ LogMessage.level log
  ++ "] [" ++ orElse (LogMessage.module log) "unknown" ++ "] "
  ++ LogMessage.message log.

Definition copyLogsToClipboard : Handler unit :=
  r <- render ;;
  perform (ClipboardWriteText (String.concat newline (map logLine (logs r)))).

(** [.then(...)] of [writeText]. *)
Definition copyLogsToClipboard_fulfilled : Handler unit :=
  setCopySuccess "Copied!" ;;
  perform (SetTimeout TimerCopyReset 2000).

Definition copyReset : Handler unit :=
  setCopySuccess "".

(** [.catch(...)] of [writeText]. *)
Definition copyLogsToClipboard_rejected : Handler unit :=
  perform (ConsoleError "Failed to copy logs:").

Definition clearLogs (now : string) : Handler unit :=
  setLogs (fun _ => []) ;;
  addLog (LogMessage.mk now "INFO" "Logs cleared" (Some "frontend")).

(** *** Triggering a capture *)

(** [handleCapture] up to its [await] (or, in test mode, to its end);
    [nowMs] is [Date.now()] and [now] is [new Date().toISOString()]. *)
Definition handleCapture (nowMs : Z) (now : string) : Handler unit :=
  r <- render ;;
  if isCapturing r then ret tt
  else
    setIsCapturing true ;;
    setCaptureStartTime (Some nowMs) ;;
    addLog (LogMessage.mk now "INFO"
              "Initiating image capture and processing" (Some "frontend")) ;;
    if isTestMode r then
      perform (SetTimeout TimerSimulatedCapture 1500)
    else
      perform (HttpPostCapture (confidenceThreshold r)).

(** The callback of the test-mode timer. *)
Definition simulatedCapture (now : string) : Handler unit :=
  setProcessingTime (Some 1500%Z) ;;
  setCaptureResult (Some mockResult) ;;
  setIsCapturing false ;;
  addLog (LogMessage.mk now "SUCCESS"
            ("Test Mode: Simulated capture completed. Result: "
             ++ CaptureResult.result mockResult ++ " (Confidence: "
             ++ toFixed (CaptureResult.confidence mockResult * 100)%float 2
             ++ "%)")
            (Some "capture")).

(** After the [await]: [response.data] may be empty, which the page tests
    before it reads [success]. *)
Definition handleCapture_fulfilled
    (response_data : option (ApiResponse.t CaptureResult.t))
    (now : string) : Handler unit :=
  match response_data with
  | Some body =>
      if negb (ApiResponse.success body) then
        setIsCapturing false ;;
        setCaptureStartTime None ;;
        addLog (LogMessage.mk now "ERROR"
                  ("Capture request failed: "
                   ++ orElse (ApiResponse.error body) "Unknown error")
                  (Some "frontend"))
      else ret tt
  | None => ret tt
  end.

(** The [catch] block; [errorMessage] is [error.message]. *)
Definition handleCapture_rejected (errorMessage : option string)
    (now : string) : Handler unit :=
  perform (ConsoleError "Error capturing image:") ;;
  setIsCapturing false ;;
  setCaptureStartTime None ;;
  setIsTestMode true ;;
  addLog (LogMessage.mk now "ERROR"
            ("Capture request error: " ++ orElse errorMessage "Network error"
             ++ ". Switched to test mode.")
            (Some "frontend")).

(** *** Saving the threshold *)

Definition saveThreshold (value : number) (now : string) : Handler unit :=
  r <- render ;;
  if isTestMode r then
    setConfidenceThreshold value ;;
    addLog (LogMessage.mk now "SUCCESS"
              ("Test Mode: Confidence threshold updated to "
               ++ toFixed value 2)
              (Some "settings"))
  else
    perform (HttpPostSettings value).

(** The [catch] block; [errorMessage] is [error.message]. *)
Definition saveThreshold_rejected (errorMessage : option string)
    (now : string) : Handler unit :=
  perform (ConsoleError "Error saving threshold:") ;;
  setIsTestMode true ;;
  addLog (LogMessage.mk now "ERROR"
            ("Failed to update threshold: "
             ++ orElse errorMessage "Network error"
             ++ ". Switched to test mode.")
            (Some "settings")).

(** After the [await].  The read of [success] on a [null] body ([None])
    throws into the [catch] block; [typeErrorMessage] is the message the
    engine gives that [TypeError], and is not looked at otherwise. *)
Definition saveThreshold_fulfilled (value : number)
    (response_data : option (ApiResponse.t unit))
    (typeErrorMessage : option string) (now : string) : Handler unit :=
  match response_data with
  | None => saveThreshold_rejected typeErrorMessage now
  | Some body =>
      if ApiResponse.success body then
        addLog (LogMessage.mk now "SUCCESS"
                  ("Confidence threshold updated to " ++ toFixed value 2)
                  (Some "settings"))
      else
        perform (ConsoleError "Error saving threshold:") ;;
        addLog (LogMessage.mk now "ERROR"
                  ("Failed to update threshold: "
                   ++ orElse (ApiResponse.error body) "Unknown error")
                  (Some "settings"))
  end.

(** *** The threshold slider and the tabs *)

(** [onChange]: [setConfidenceThreshold(parseFloat(e.target.value))]. *)
Definition sliderOnChange (e_target_value : string) : Handler unit :=
  setConfidenceThreshold (parseFloat e_target_value).

(** [onMouseUp]: [saveThreshold(confidenceThreshold)]. *)
Definition sliderOnMouseUp (now : string) : Handler unit :=
  r <- render ;;
  saveThreshold (confidenceThreshold r) now.

Definition tabOnClick (tab : string) : Handler unit :=
  setSelectedTab tab.

(** *** The page as a machine *)

(** What can happen to the mounted page. *)
Inductive Event :=
| SocketConnect (now : string)
| SocketDisconnect (now : string)
| SocketConnectError (errorMessage now : string)
| SocketStatusUpdate (status : BackendStatus.t)
| SocketLogMessage (logMessage : LogMessage.t)
| SocketLogHistory (data_logs : list LogMessage.t)
| SocketCaptureStarted (nowMs : Z)
| SocketCaptureResult (result : CaptureResult.t) (nowMs : Z) (now : string)
| TimerFired (callback : Timer) (now : string)
| Mounted
| SettingsFulfilled (response_data : option (ApiResponse.t SettingsData.t))
    (now : string)
| SettingsRejected (now : string)
| CopyClicked
| CopyFulfilled
| CopyRejected
| ClearClicked (now : string)
| CaptureClicked (nowMs : Z) (now : string)
| CaptureFulfilled (response_data : option (ApiResponse.t CaptureResult.t))
    (now : string)
| CaptureRejected (errorMessage : option string) (now : string)
| SliderChanged (e_target_value : string)
| SliderReleased (now : string)
| SaveFulfilled (value : number)
    (response_data : option (ApiResponse.t unit))
    (typeErrorMessage : option string) (now : string)
| SaveRejected (errorMessage : option string) (now : string)
| TabClicked (tab : string).

Definition dispatch (e : Event) : Handler unit :=
  match e with
  | SocketConnect now => onConnect now
  | SocketDisconnect now => onDisconnect now
  | SocketConnectError m now => onConnectError m now
  | SocketStatusUpdate status => onStatusUpdate status
  | SocketLogMessage m => onLogMessage m
  | SocketLogHistory ls => onLogHistory ls
  | SocketCaptureStarted nowMs => onCaptureStarted nowMs
  | SocketCaptureResult result nowMs now => onCaptureResult result nowMs now
  | TimerFired TimerSimulatedStatus _ => simulatedStatus
  | TimerFired TimerSimulatedCapture now => simulatedCapture now
  | TimerFired TimerCopyReset _ => copyReset
  | Mounted => loadSettings
  | SettingsFulfilled body now => loadSettings_fulfilled body now
  | SettingsRejected now => loadSettings_rejected now
  | CopyClicked => copyLogsToClipboard
  | CopyFulfilled => copyLogsToClipboard_fulfilled
  | CopyRejected => copyLogsToClipboard_rejected
  | ClearClicked now => clearLogs now
  | CaptureClicked nowMs now => handleCapture nowMs now
  | CaptureFulfilled body now => handleCapture_fulfilled body now
  | CaptureRejected m now => handleCapture_rejected m now
  | SliderChanged raw => sliderOnChange raw
  | SliderReleased now => sliderOnMouseUp now
  | SaveFulfilled value body m now =>
      saveThreshold_fulfilled value body m now
  | SaveRejected m now => saveThreshold_rejected m now
  | TabClicked tab => tabOnClick tab
  end.

Definition step (w : World) (e : Event) : World := run (dispatch e) w.

Definition steps (es : list Event) (w : World) : World := fold_left step es w.

(** *** The level column of the log table *)

(** [toUpperCase] on the letters [a-z]; the levels the page compares with
    are ASCII words, and on ASCII text this is the built-in. *)
Definition upperChar (c : ascii) : ascii :=
  let n := nat_of_ascii c in
  if ((97 <=? n) && (n <=? 122))%nat then ascii_of_nat (n - 32) else c.

Fixpoint toUpperCase (s : string) : string :=
  match s with
  | EmptyString => EmptyString
  | String c rest => String (upperChar c) (toUpperCase rest)
  end.

Definition isAsciiChar (c : ascii) : bool := (nat_of_ascii c <? 128)%nat.

Fixpoint isAscii (s : string) : bool :=
  match s with
  | EmptyString => true
  | String c rest => isAsciiChar c && isAscii rest
  end.

(** The [switch] of [getLogLevelClass]; a class of the style sheet is
    named by its selector. *)
Definition getLogLevelClass (level : string) : string :=
  let upper := toUpperCase level in
  if String.eqb upper "INFO" then "logInfo"
  else if String.eqb upper "SUCCESS" then "logSuccess"
  else if String.eqb upper "WARNING" then "logWarning"
  else if String.eqb upper "ERROR" then "logError"
  else "".

(** *** Kinds of events and requests *)

Definition isHttp (e : Effect) : bool :=
  match e with
  | HttpGetSettings | HttpPostCapture _ | HttpPostSettings _ => true
  | _ => false
  end.

(** The capture trigger, and the events that end a capture. *)
Definition isTrigger (e : Event) : bool :=
  match e with
  | CaptureClicked _ _ => true
  | _ => false
  end.

Definition isTerminal (e : Event) : bool :=
  match e with
  | SocketCaptureResult _ _ _ | TimerFired TimerSimulatedCapture _
  | CaptureFulfilled _ _ | CaptureRejected _ _ => true
  | _ => false
  end.

(** The two events that replace the log list instead of extending it. *)
Definition replacesLogs (e : Event) : bool :=
  match e with
  | SocketLogHistory _ | ClearClicked _ => true
  | _ => false
  end.

(** The events whose log entries come from the server. *)
Definition carriesServerLogs (e : Event) : bool :=
  match e with
  | SocketLogMessage _ | SocketLogHistory _ => true
  | _ => false
  end.

Definition setsThreshold (e : Event) : bool :=
  match e with
  | SliderChanged _ | SettingsFulfilled _ _ => true
  | _ => false
  end.

Definition isMounted (e : Event) : bool :=
  match e with
  | Mounted => true
  | _ => false
  end.

(** Whether the [try] block of [loadSettings] throws on a body: on a
    [null] body, and on a body with a truthy [success] whose [data] has no
    [settings]. *)
Definition settingsReadThrows
    (response_data : option (ApiResponse.t SettingsData.t)) : bool :=
  match response_data with
  | None => true
  | Some body =>
      ApiResponse.success body
      && match ApiResponse.data body with
         | Some d =>
             match SettingsData.settings d with
             | Some _ => false
             | None => true
             end
         | None => false
         end
  end.

(** The events that reach a [catch] block with [setIsTestMode(true)]: a
    socket that cannot connect, the three rejected HTTP requests, and a
    settings or save reply on which a read throws. *)
Definition entersTestMode (e : Event) : bool :=
  match e with
  | SocketConnectError _ _ | SettingsRejected _ | CaptureRejected _ _
  | SaveRejected _ _ => true
  | SettingsFulfilled body _ => settingsReadThrows body
  | SaveFulfilled _ None _ _ => true
  | _ => false
  end.

(** The HTTP requests that an event makes the page send. *)
Definition httpRequestsOf (w : World) (e : Event) : list Effect :=
  match e with
  | Mounted => [HttpGetSettings]
  | CaptureClicked _ _ =>
      if isCapturing (st w) || isTestMode (st w) then []
      else [HttpPostCapture (confidenceThreshold (st w))]
  | SliderReleased _ =>
      if isTestMode (st w) then []
      else [HttpPostSettings (confidenceThreshold (st w))]
  | _ => []
  end.

(** * Properties *)

(** ** Running handlers *)

Lemma run_addLog (m : LogMessage.t) (w : World) :
  run (addLog m) w
  = mkWorld
      (mkState (isConnected (st w)) (logs (st w) ++ [m])%list
         (isCapturing (st w)) (captureResult (st w))
         (confidenceThreshold (st w)) (backendStatus (st w))
         (processingTime (st w)) (copySuccess (st w)) (selectedTab (st w))
         (isTestMode (st w)))
      (refs w) (effects w).
Proof. reflexivity. Qed.

Lemma logs_run_addLog (m : LogMessage.t) (w : World) :
  logs (st (run (addLog m) w)) = (logs (st w) ++ [m])%list.
Proof. reflexivity. Qed.

Lemma logs_addLogs (ms : list LogMessage.t) (w : World) :
  logs (st (addLogs ms w)) = (logs (st w) ++ ms)%list.
Proof.
  revert w.
  induction ms as [|m ms IH]; intro w.
  - symmetry. apply app_nil_r.
  - change (addLogs (m :: ms) w) with (addLogs ms (run (addLog m) w)).
    rewrite IH, logs_run_addLog, <- app_assoc.
    reflexivity.
Qed.

(** Unfold a handler down to the world it returns. *)
Ltac run_handler :=
  unfold step, dispatch, run, execState; cbn.

(** ** The capture guard *)

Lemma handleCapture_busy (w : World) (nowMs : Z) (now : string) :
  isCapturing (st w) = true ->
  run (handleCapture nowMs now) w = w.
Proof.
  intro Hbusy.
  unfold handleCapture.
  run_handler.
  rewrite Hbusy.
  reflexivity.
Qed.

(** A trigger that is let through sets the busy flag, whatever the mode. *)
Lemma handleCapture_sets_busy (w : World) (nowMs : Z) (now : string) :
  isCapturing (st w) = false ->
  isCapturing (st (run (handleCapture nowMs now) w)) = true.
Proof.
  intro Hidle.
  unfold handleCapture.
  run_handler.
  rewrite Hidle.
  destruct (isTestMode (st w)); reflexivity.
Qed.

(** Hence a second trigger right after a first one is always dropped. *)
Lemma second_trigger_dropped (w : World) (t1 t2 : Z) (n1 n2 : string) :
  step (step w (CaptureClicked t1 n1)) (CaptureClicked t2 n2)
  = step w (CaptureClicked t1 n1).
Proof.
  unfold step, dispatch.
  destruct (isCapturing (st w)) eqn:Hc.
  - rewrite (handleCapture_busy w t1 n1 Hc).
    apply handleCapture_busy, Hc.
  - apply handleCapture_busy, handleCapture_sets_busy, Hc.
Qed.

(** C4. In every client state in which a capture is in progress
    ([isCapturing] is true), the capture trigger does nothing: the state,
    the refs and the trace of requests (HTTP, timers, console) are exactly
    what they were, so no request is sent and no log entry is appended. *)
Theorem C4_trigger_while_capturing_is_noop
    (w : World) (nowMs : Z) (now : string)
    (Hbusy : isCapturing (st w) = true) :
  step w (CaptureClicked nowMs now) = w.
Proof.
  apply handleCapture_busy, Hbusy.
Qed.

(** ** The terminal event of a capture *)

(** C8. On every [capture_result] event the client appends exactly one log
    entry, of level SUCCESS when the event's [success] is true and ERROR
    otherwise, stores the result, and leaves [isCapturing] false. *)
Theorem C8_capture_result_is_terminal
    (w : World) (result : CaptureResult.t) (nowMs : Z) (now : string) :
  let w' := step w (SocketCaptureResult result nowMs now) in
  (exists entry,
      logs (st w') = (logs (st w) ++ [entry])%list
      /\ LogMessage.level entry
         = (if CaptureResult.success result then "SUCCESS" else "ERROR"))
  /\ captureResult (st w') = Some result
  /\ isCapturing (st w') = false.
Proof.
  unfold onCaptureResult.
  run_handler.
  destruct (truthyTime (captureStartTime (refs w))); cbn;
    (split; [eexists; split; reflexivity | split; reflexivity]).
Qed.

(** ** Replaying the log history *)

(** C9. On a [log_history] event the log list becomes exactly the logs of
    the payload, in payload order, whatever had been accumulated before;
    every other state field, the refs and the trace of requests are
    unchanged. *)
Theorem C9_log_history_replaces_logs
    (w : World) (data_logs : list LogMessage.t) :
  step w (SocketLogHistory data_logs)
  = mkWorld
      (mkState (isConnected (st w)) data_logs (isCapturing (st w))
         (captureResult (st w)) (confidenceThreshold (st w))
         (backendStatus (st w)) (processingTime (st w)) (copySuccess (st w))
         (selectedTab (st w)) (isTestMode (st w)))
      (refs w) (effects w).
Proof.
  destruct w as [s r e].
  unfold onLogHistory, setLogs, setState.
  run_handler.
  reflexivity.
Qed.

(** ** The log list *)

(** C6 (as the page has it). [addLog] appends and never evicts: after any
    batch of appends the log list is the previous list followed by the
    whole batch, so its length is the previous length plus the size of the
    batch, under no capacity bound. *)
Theorem C6_append_only_log_list (ms : list LogMessage.t) (w : World) :
  logs (st (addLogs ms w)) = (logs (st w) ++ ms)%list
  /\ List.length (logs (st (addLogs ms w)))
     = (List.length (logs (st w)) + List.length ms)%nat.
Proof.
  split.
  - apply logs_addLogs.
  - rewrite logs_addLogs. apply length_app.
Qed.

(** ** The simulated capture *)

(** The rule of the post-processor: PASS exactly when the confidence is at
    least the threshold, the tie included. *)
Lemma evaluate_PASS_iff (c t : number) :
  PostProcessor.evaluate c t = PostProcessor.PASS <-> geb c t = true.
Proof.
  unfold PostProcessor.evaluate.
  destruct (geb c t); split; intro H; first [reflexivity | discriminate H].
Qed.

(** C1 (as the page has it). The test-mode simulation records the verdict
    PASS with confidence 0.85 and leaves the threshold alone, whatever the
    threshold is; its verdict is therefore the one that "PASS iff
    confidence >= threshold" gives exactly for the thresholds that are at
    most 0.85. *)
Theorem C1_simulated_verdict_is_constant (w : World) (now : string) :
  let w' := step w (TimerFired TimerSimulatedCapture now) in
  let t := confidenceThreshold (st w') in
  exists r,
    captureResult (st w') = Some r
    /\ CaptureResult.result r = "PASS"
    /\ CaptureResult.confidence r = 0.85%float
    /\ t = confidenceThreshold (st w)
    /\ (CaptureResult.result r
         = PostProcessor.verdictText
             (PostProcessor.evaluate (CaptureResult.confidence r) t)
        <-> leb t 0.85%float = true).
Proof.
  exists mockResult.
  do 4 (split; [reflexivity |]).
  unfold PostProcessor.evaluate, geb, leb.
  cbn [CaptureResult.result CaptureResult.confidence mockResult].
  destruct (PrimFloat.leb _ 0.85%float); cbn; split; intro H;
    first [reflexivity | discriminate H].
Qed.

(** ** Loading the settings *)

(** C2 (as the page has it). [loadSettings] reads the threshold under the
    [data] member of the body: a successful body of the shape [{success,
    data: {settings: {confidence_threshold}}}] sets the threshold to
    exactly that value and changes no other field, while a successful body
    that carries [settings] at top level leaves the page as it was. *)
Theorem C2_threshold_read_under_data
    (w : World) (v : number) (now : string) :
  (exists body,
      asApiResponse asSettingsData (envelopedSettings v) = Some body
      /\ step w (SettingsFulfilled (Some body) now)
         = mkWorld
             (mkState (isConnected (st w)) (logs (st w)) (isCapturing (st w))
                (captureResult (st w)) v (backendStatus (st w))
                (processingTime (st w)) (copySuccess (st w))
                (selectedTab (st w)) (isTestMode (st w)))
             (refs w)
             (effects w ++ [ConsoleLog "Loaded confidence threshold:"])%list)
  /\ (exists body,
         asApiResponse asSettingsData (topLevelSettings v) = Some body
         /\ step w (SettingsFulfilled (Some body) now) = w).
Proof.
  split; eexists; split; reflexivity.
Qed.

(** ** The response to a capture request *)

Lemma handleCapture_fulfilled_success
    (w : World) (body : ApiResponse.t CaptureResult.t) (now : string) :
  ApiResponse.success body = true ->
  run (handleCapture_fulfilled (Some body) now) w = w.
Proof.
  intro Hok.
  unfold handleCapture_fulfilled.
  run_handler.
  rewrite Hok.
  reflexivity.
Qed.

Lemma onCaptureResult_records
    (w : World) (result : CaptureResult.t) (nowMs : Z) (now : string) :
  let w' := run (onCaptureResult result nowMs now) w in
  captureResult (st w') = Some result /\ isCapturing (st w') = false.
Proof.
  unfold onCaptureResult.
  run_handler.
  destruct (truthyTime (captureStartTime (refs w))); split; reflexivity.
Qed.

(** C7 (as the page has it). A successful response to [POST /api/capture],
    with or without a result in it, changes nothing in the page: the
    result it may carry is not recorded and the in-progress flag is not
    touched, so the page goes on waiting for the event stream; a
    [capture_result] event that follows records its own result and clears
    the flag. *)
Theorem C7_successful_response_changes_nothing
    (w : World) (body : ApiResponse.t CaptureResult.t) (now : string)
    (result : CaptureResult.t) (nowMs : Z) (later : string)
    (Hok : ApiResponse.success body = true) :
  step w (CaptureFulfilled (Some body) now) = w
  /\ (let w' := steps [CaptureFulfilled (Some body) now;
                       SocketCaptureResult result nowMs later] w in
      captureResult (st w') = Some result
      /\ isCapturing (st w') = false).
Proof.
  split.
  - apply handleCapture_fulfilled_success, Hok.
  - unfold steps. cbn [fold_left].
    replace (step w (CaptureFulfilled (Some body) now)) with w
      by (symmetry; apply handleCapture_fulfilled_success, Hok).
    exact (onCaptureResult_records w result nowMs later).
Qed.

(** ** Failure paths *)

(** The failures of the HTTP calls are all written to the log list, at
    level ERROR: the rejected requests, the replies that report a failure
    and the replies on which a read throws. *)
Lemma http_failures_are_logged (w : World) (now : string) :
  loggedError w (step w (SettingsRejected now))
  /\ (forall body, settingsReadThrows body = true ->
        loggedError w (step w (SettingsFulfilled body now)))
  /\ (forall body, ApiResponse.success body = false ->
        loggedError w (step w (CaptureFulfilled (Some body) now)))
  /\ (forall m, loggedError w (step w (CaptureRejected m now)))
  /\ (forall v body m, ApiResponse.success body = false ->
        loggedError w (step w (SaveFulfilled v (Some body) m now)))
  /\ (forall v m, loggedError w (step w (SaveFulfilled v None m now)))
  /\ (forall m, loggedError w (step w (SaveRejected m now))).
Proof.
  unfold loggedError.
  split; [|split; [|split; [|split; [|split; [|split]]]]].
  - eexists; split; reflexivity.
  - intros [[[|] [[[s |]] |] e] |] Hthrows; cbn in Hthrows;
      try discriminate Hthrows;
      eexists; split; reflexivity.
  - intros body Hko.
    destruct body as [ok d e]; cbn in Hko; subst ok.
    eexists; split; reflexivity.
  - intro m. eexists; split; reflexivity.
  - intros v body m Hko.
    destruct body as [ok d e]; cbn in Hko; subst ok.
    eexists; split; reflexivity.
  - intros v m. eexists; split; reflexivity.
  - intro m. eexists; split; reflexivity.
Qed.

(** A reply to the settings request that reports [success: false] is
    dropped without a trace. *)
Lemma settings_failure_reply_is_dropped
    (w : World) (body : ApiResponse.t SettingsData.t) (now : string) :
  ApiResponse.success body = false ->
  step w (SettingsFulfilled (Some body) now) = w.
Proof.
  intro Hko.
  destruct body as [ok d e]; cbn in Hko; subst ok.
  reflexivity.
Qed.

(** C5 (the clipboard path). When [navigator.clipboard.writeText] rejects,
    the page writes to the console and nothing else: the state, and with it
    the log list, is what it was. *)
Theorem C5_clipboard_failure_leaves_no_log_entry (w : World) :
  step w CopyRejected
  = mkWorld (st w) (refs w)
      (effects w ++ [ConsoleError "Failed to copy logs:"])%list.
Proof.
  destruct w as [s r e].
  unfold copyLogsToClipboard_rejected, perform.
  run_handler.
  reflexivity.
Qed.

(** ** The range of the threshold *)

Lemma rangeValue_stops_in_unit_interval :
  forallb (fun k => Middleware.inUnitInterval (parseFloat (rangeValue k)))
    (seq 0 100) = true.
Proof. vm_compute. reflexivity. Qed.

Lemma rangeValue_in_unit_interval (k : nat) :
  Middleware.inUnitInterval (parseFloat (rangeValue k)) = true.
Proof.
  destruct (Nat.ltb_spec k 100) as [Hlt | Hge].
  - pose proof rangeValue_stops_in_unit_interval as Hall.
    rewrite forallb_forall in Hall.
    apply Hall, in_seq. lia.
  - unfold rangeValue.
    destruct (Nat.eqb_spec k 0) as [-> | _]; [lia |].
    destruct (Nat.ltb_spec k 100) as [Hlt | _]; [lia |].
    reflexivity.
Qed.

(** What the slider sends when it is moved to a stop and released. *)
Lemma slider_release_sends_stop (w : World) (k : nat) (now : string) :
  effects (steps [SliderChanged (rangeValue k); SliderReleased now] w)
  = if isTestMode (st w) then effects w
    else (effects w ++ [HttpPostSettings (parseFloat (rangeValue k))])%list.
Proof.
  unfold steps, sliderOnMouseUp, saveThreshold.
  cbn [fold_left].
  run_handler.
  destruct (isTestMode (st w)); reflexivity.
Qed.

(** C3. A threshold outside [0,1] submitted to [POST /api/settings] is
    rejected with [InvalidArgument] and the stored settings are what they
    were; and whatever stop the slider of the page is moved to, the value
    it sends through [saveThreshold] on release lies in [0,1]. *)
Theorem C3_threshold_outside_unit_interval_rejected
    (v : number) (store : Middleware.Settings)
    (w : World) (k : nat) (now : string)
    (Hout : Middleware.inUnitInterval v = false) :
  Middleware.postSettings v store
  = (Middleware.mkReply false (Some Middleware.InvalidArgument), store)
  /\ (let sent := parseFloat (rangeValue k) in
      Middleware.inUnitInterval sent = true
      /\ effects (steps [SliderChanged (rangeValue k); SliderReleased now] w)
         = if isTestMode (st w) then effects w
           else (effects w ++ [HttpPostSettings sent])%list).
Proof.
  split.
  - unfold Middleware.postSettings. rewrite Hout. reflexivity.
  - split.
    + apply rangeValue_in_unit_interval.
    + apply slider_release_sends_stop.
Qed.


(** * Further properties of the page *)

(** Take an event apart and run its handler on every branch it has. *)
Ltac by_event e :=
  destruct e as [ | | | | | | | | [ | | ] | | | | | | | | | | | | | | | ];
  unfold step, dispatch, run, execState,
    onCaptureResult, loadSettings_fulfilled, handleCapture,
    handleCapture_fulfilled, saveThreshold_fulfilled, sliderOnMouseUp,
    saveThreshold;
  cbn;
  repeat match goal with
         | |- context [if ?b then _ else _] => destruct b eqn:?; cbn
         | |- context [match ?x with _ => _ end] => destruct x eqn:?; cbn
         end.

(** ** Test mode *)

Lemma step_keeps_test_mode (w : World) (e : Event) :
  isTestMode (st w) = true -> isTestMode (st (step w e)) = true.
Proof.
  intro Htest.
  by_event e; try assumption; try reflexivity; congruence.
Qed.

(** Test mode is never left: once [isTestMode] is set, it stays set
    through every sequence of events. *)
Theorem test_mode_is_sticky (es : list Event) (w : World)
    (Htest : isTestMode (st w) = true) :
  isTestMode (st (steps es w)) = true.
Proof.
  revert w Htest.
  induction es as [|e es IH]; intros w Htest.
  - exact Htest.
  - apply IH, step_keeps_test_mode, Htest.
Qed.

(** ** The busy flag *)

(** X4. The busy flag moves only at the trigger and at the events that end
    a capture: every other event leaves [isCapturing] as it was. *)
Theorem busy_flag_moves_only_at_trigger_and_outcome
    (w : World) (e : Event)
    (Htrigger : isTrigger e = false) (Hterminal : isTerminal e = false) :
  isCapturing (st (step w e)) = isCapturing (st w).
Proof.
  by_event e; try reflexivity; discriminate.
Qed.

(** X5. Whatever ends a capture, other than a successful reply, leaves the
    page idle: the [capture_result] event, the simulated capture, a failed
    reply and a rejected request all clear the busy flag, and the last two
    also forget the start time. *)
Theorem every_outcome_clears_busy_flag
    (w : World) (result : CaptureResult.t) (nowMs : Z) (now : string)
    (body : ApiResponse.t CaptureResult.t) (errorMessage : option string)
    (Hfailed : ApiResponse.success body = false) :
  isCapturing (st (step w (SocketCaptureResult result nowMs now))) = false
  /\ isCapturing (st (step w (TimerFired TimerSimulatedCapture now))) = false
  /\ (let w' := step w (CaptureFulfilled (Some body) now) in
      isCapturing (st w') = false /\ captureStartTime (refs w') = None)
  /\ (let w' := step w (CaptureRejected errorMessage now) in
      isCapturing (st w') = false /\ captureStartTime (refs w') = None).
Proof.
  destruct body as [ok d err]; cbn in Hfailed; subst ok.
  split; [| split; [| split]].
  - unfold onCaptureResult. run_handler.
    destruct (truthyTime (captureStartTime (refs w))); reflexivity.
  - reflexivity.
  - split; reflexivity.
  - split; reflexivity.
Qed.

(** ** The log list *)

(** X6. Apart from a replayed history and a clearing, no event removes or
    reorders log entries: the list after the event is the list before it
    followed by at most one new entry. *)
Theorem log_list_is_extended_by_at_most_one
    (w : World) (e : Event) (Hkeep : replacesLogs e = false) :
  exists new,
    logs (st (step w e)) = (logs (st w) ++ new)%list
    /\ (List.length new <= 1)%nat.
Proof.
  by_event e; try discriminate;
    first [ exists []; split; [symmetry; apply app_nil_r | cbn; lia]
          | eexists; split; [reflexivity | cbn; lia] ].
Qed.

(** X7. Every entry the page writes itself carries a level that the log
    table styles and a module tag: after an event that brings no server
    logs, an entry of the list is either an old one or such an entry. *)
Theorem own_entries_have_level_class_and_module
    (w : World) (e : Event) (Hown : carriesServerLogs e = false)
    (entry : LogMessage.t)
    (Hin : In entry (logs (st (step w e)))) :
  In entry (logs (st w))
  \/ (getLogLevelClass (LogMessage.level entry) <> ""
      /\ LogMessage.module entry <> None).
Proof.
  revert Hin.
  by_event e; try discriminate; intro Hin;
    try (left; exact Hin);
    try (apply in_app_or in Hin; destruct Hin as [Hin | Hin];
         [left; exact Hin |]);
    destruct Hin as [<- | []]; right; cbn; split; discriminate.
Qed.

(** ** Requests *)

Lemma step_in_simulation_sends_no_http (w : World) (e : Event) :
  isTestMode (st w) = true -> isMounted e = false ->
  exists new,
    effects (step w e) = (effects w ++ new)%list
    /\ existsb isHttp new = false.
Proof.
  intros Htest Hmounted.
  by_event e; try discriminate; try congruence;
    rewrite <- ?app_assoc;
    first [ exists []; split; [symmetry; apply app_nil_r | reflexivity]
          | eexists; split; [reflexivity | reflexivity] ].
Qed.

Lemma steps_in_test_mode_send_no_http (es : list Event) (w : World) :
  isTestMode (st w) = true ->
  forallb (fun e => negb (isMounted e)) es = true ->
  exists new,
    effects (steps es w) = (effects w ++ new)%list
    /\ existsb isHttp new = false.
Proof.
  revert w.
  induction es as [|e es IH]; intros w Htest Hmounted.
  - exists []. split; [symmetry; apply app_nil_r | reflexivity].
  - cbn [forallb] in Hmounted.
    apply andb_true_iff in Hmounted as [He Hes].
    apply negb_true_iff in He.
    destruct (step_in_simulation_sends_no_http w e Htest He)
      as [new1 [Heff1 Hno1]].
    destruct (IH (step w e) (step_keeps_test_mode w e Htest) Hes)
      as [new2 [Heff2 Hno2]].
    exists (new1 ++ new2)%list.
    split.
    + change (steps (e :: es) w) with (steps es (step w e)).
      rewrite Heff2, Heff1, app_assoc. reflexivity.
    + rewrite existsb_app, Hno1, Hno2. reflexivity.
Qed.

(** X2. In test mode the page never talks to the backend over HTTP: from a
    world in test mode, no sequence of events other than a mount adds an
    HTTP request to the trace. *)
Theorem test_mode_sends_no_http (es : list Event) (w : World)
    (Htest : isTestMode (st w) = true)
    (Hmounted : forallb (fun e => negb (isMounted e)) es = true) :
  exists new,
    effects (steps es w) = (effects w ++ new)%list
    /\ existsb isHttp new = false.
Proof.
  apply steps_in_test_mode_send_no_http; assumption.
Qed.

(** X8. The HTTP requests of the page, event by event: the mount sends
    the GET of the settings; the capture trigger, on an idle page outside
    test mode, sends the POST of a capture with the threshold on display;
    the release of the slider, outside test mode, sends the POST of the
    settings with that threshold; nothing else sends any request, so an
    event sends at most one. *)
Theorem http_requests_come_from_three_events (w : World) (e : Event) :
  exists new,
    effects (step w e) = (effects w ++ new)%list
    /\ filter isHttp new = httpRequestsOf w e
    /\ (List.length (filter isHttp new) <= 1)%nat.
Proof.
  by_event e;
    rewrite <- ?app_assoc;
    first [ exists []; split; [symmetry; apply app_nil_r |]
          | eexists; split; [reflexivity |] ];
    cbn; split; first [reflexivity | lia].
Qed.

(** ** The threshold *)

(** X9. The threshold changes only when the slider is moved or the
    settings arrive: every other event, the release of the slider in test
    mode included, leaves it as it was. *)
Theorem threshold_moves_only_with_slider_or_settings
    (w : World) (e : Event) (Hother : setsThreshold e = false) :
  confidenceThreshold (st (step w e)) = confidenceThreshold (st w).
Proof.
  by_event e; try reflexivity; discriminate.
Qed.

(** X10. A failed save does not roll the threshold back: the slider keeps the
    value that the server did not accept, and an ERROR entry says so. *)
Theorem failed_save_keeps_unsaved_threshold
    (w : World) (k : nat) (n1 n2 : string)
    (body : ApiResponse.t unit) (errorMessage thrown : option string)
    (Hlive : isTestMode (st w) = false)
    (Hfailed : ApiResponse.success body = false) :
  let sent := parseFloat (rangeValue k) in
  let released := steps [SliderChanged (rangeValue k); SliderReleased n1] w in
  (let w' := step released (SaveFulfilled sent (Some body) thrown n2) in
   confidenceThreshold (st w') = sent /\ loggedError released w')
  /\ (let w' := step released (SaveRejected errorMessage n2) in
      confidenceThreshold (st w') = sent /\ loggedError released w'
      /\ isTestMode (st w') = true).
Proof.
  destruct body as [ok d err]; cbn in Hfailed; subst ok.
  unfold steps, loggedError, sliderOnMouseUp, saveThreshold.
  cbn [fold_left].
  run_handler.
  rewrite Hlive. cbn.
  split; [split | split; [| split]];
    first [reflexivity | eexists; split; reflexivity].
Qed.

(** ** Timing a capture *)

(** X11. The processing time is measured from the latest start: from the click
    when no [capture_started] event follows it, from that event when one
    does; and the start time is consumed by the measurement. *)
Theorem processing_time_runs_from_latest_start
    (w : World) (t0 ts t1 : Z) (n0 n1 : string) (result : CaptureResult.t)
    (Hidle : isCapturing (st w) = false)
    (Ht0 : t0 <> 0%Z) (Hts : ts <> 0%Z) :
  (let w' := steps [CaptureClicked t0 n0;
                    SocketCaptureResult result t1 n1] w in
   processingTime (st w') = Some (t1 - t0)%Z
   /\ captureStartTime (refs w') = None)
  /\ (let w' := steps [CaptureClicked t0 n0; SocketCaptureStarted ts;
                       SocketCaptureResult result t1 n1] w in
      processingTime (st w') = Some (t1 - ts)%Z
      /\ captureStartTime (refs w') = None).
Proof.
  apply Z.eqb_neq in Ht0, Hts.
  unfold steps, handleCapture, onCaptureResult, truthyTime.
  cbn [fold_left].
  run_handler.
  rewrite Hidle.
  destruct (isTestMode (st w)); cbn; rewrite ?Ht0, ?Hts; cbn;
    repeat split.
Qed.

(** X12. A result that finds no start time measures nothing: of two
    [capture_result] events in a row the second leaves the processing time
    of the first, while its result replaces the first one. *)
Theorem repeated_result_keeps_processing_time
    (w : World) (r1 r2 : CaptureResult.t) (t1 t2 : Z) (n1 n2 : string) :
  let w1 := step w (SocketCaptureResult r1 t1 n1) in
  let w2 := step w1 (SocketCaptureResult r2 t2 n2) in
  processingTime (st w2) = processingTime (st w1)
  /\ captureResult (st w2) = Some r2.
Proof.
  destruct w as [s [[start |]] e];
    [destruct (start =? 0)%Z eqn:Hzero |];
    unfold step, dispatch, run, execState, onCaptureResult, truthyTime;
    cbn; rewrite ?Hzero; cbn; rewrite ?Hzero; cbn;
    split; reflexivity.
Qed.

(** ** The simulated capture, from click to result *)

(** X13. In test mode a click on an idle page and the timer it sets make one
    whole capture: the page is idle again, shows the simulated result and
    1500 ms, has two more log entries (INFO, then SUCCESS) and has asked
    for the timer only.  The start time of the click is left behind. *)
Theorem simulated_capture_cycle
    (w : World) (t0 : Z) (n0 n1 : string)
    (Hidle : isCapturing (st w) = false)
    (Htest : isTestMode (st w) = true) :
  let w' := steps [CaptureClicked t0 n0;
                   TimerFired TimerSimulatedCapture n1] w in
  isCapturing (st w') = false
  /\ captureResult (st w') = Some mockResult
  /\ processingTime (st w') = Some 1500%Z
  /\ (exists started finished,
         logs (st w') = (logs (st w) ++ [started; finished])%list
         /\ LogMessage.level started = "INFO"
         /\ LogMessage.level finished = "SUCCESS")
  /\ effects w' = (effects w ++ [SetTimeout TimerSimulatedCapture 1500])%list
  /\ captureStartTime (refs w') = Some t0.
Proof.
  unfold steps, handleCapture.
  cbn [fold_left].
  run_handler.
  rewrite Hidle, Htest. cbn.
  do 3 (split; [reflexivity |]).
  split; [| split; reflexivity].
  do 2 eexists.
  rewrite <- app_assoc.
  repeat split.
Qed.

(** ** Clearing and copying the logs *)

(** Clearing leaves exactly one entry, the note that the logs were cleared,
    whatever the list held, and touches nothing else; so clearing twice is
    clearing once. *)
Theorem clearing_leaves_one_entry (w : World) (n1 n2 : string) :
  step w (ClearClicked n1)
  = mkWorld
      (mkState (isConnected (st w))
         [LogMessage.mk n1 "INFO" "Logs cleared" (Some "frontend")]
         (isCapturing (st w)) (captureResult (st w))
         (confidenceThreshold (st w)) (backendStatus (st w))
         (processingTime (st w)) (copySuccess (st w)) (selectedTab (st w))
         (isTestMode (st w)))
      (refs w) (effects w)
  /\ steps [ClearClicked n1; ClearClicked n2] w = step w (ClearClicked n2).
Proof.
  destruct w as [s r e].
  split; reflexivity.
Qed.

(** X14. The mark of a successful copy is transient: after the copy, its
    fulfilment and the timer it sets, the state is what it was before the
    click (the mark shows in between). *)
Theorem copy_mark_is_transient (w : World) (now : string)
    (Hunmarked : copySuccess (st w) = "") :
  copySuccess (st (steps [CopyClicked; CopyFulfilled] w)) = "Copied!"
  /\ st (steps [CopyClicked; CopyFulfilled; TimerFired TimerCopyReset now] w)
     = st w.
Proof.
  destruct w as [s r e].
  destruct s as [c l b cr th bs pt cs tab tm].
  cbn in Hunmarked. subst cs.
  split; reflexivity.
Qed.

(** ** Losing the socket *)

(** X15. A connection error puts the page in test mode and, once its timer
    fires, shows the camera and the model as available although the page
    is not connected. *)
Theorem connection_error_simulates_backend
    (w : World) (errorMessage n1 n2 : string) :
  let w' := steps [SocketConnectError errorMessage n1;
                   TimerFired TimerSimulatedStatus n2] w in
  isConnected (st w') = false
  /\ isTestMode (st w') = true
  /\ backendStatus (st w') = BackendStatus.mk true true
  /\ loggedError w w'.
Proof.
  unfold loggedError.
  repeat split.
  eexists; split; reflexivity.
Qed.

(** ** Entering test mode *)

Lemma step_test_mode_flag (w : World) (e : Event) :
  isTestMode (st (step w e)) = entersTestMode e || isTestMode (st w).
Proof.
  by_event e; try reflexivity; congruence.
Qed.

(** X1. The test-mode flag after an event is the flag before it, or true
    when the event lands in a [catch] block that sets it: a connection
    error, a rejected request, a settings or save reply with a [null]
    body, a settings reply whose [success] is truthy and whose [data] has
    no [settings].  Nothing else sets it (a reply that reports a failure
    does not) and nothing clears it. *)
Theorem test_mode_entered_by_errors_only (w : World) (e : Event) :
  isTestMode (st (step w e)) = entersTestMode e || isTestMode (st w).
Proof.
  apply step_test_mode_flag.
Qed.

(** X3. One network error silences the page for good: after a connection
    error or a rejected request, no later sequence of events (short of a
    new mount) sends an HTTP request. *)
Theorem one_error_stops_all_http
    (w : World) (e : Event) (es : list Event)
    (Herror : entersTestMode e = true)
    (Hmounted : forallb (fun e' => negb (isMounted e')) es = true) :
  exists new,
    effects (steps es (step w e)) = (effects (step w e) ++ new)%list
    /\ existsb isHttp new = false.
Proof.
  apply steps_in_test_mode_send_no_http; [| exact Hmounted].
  rewrite step_test_mode_flag, Herror.
  reflexivity.
Qed.

End Home.

(** ** The seeded default *)

(** C10. Before any settings load the threshold of the page is 0.5, and the
    value the schema seeds for [confidence_threshold] in a fresh database,
    the text '0.5', denotes the same number. *)
Theorem C10_initial_threshold_matches_seed :
  confidenceThreshold initialState = 0.5%float
  /\ Schema.lookup "confidence_threshold" Schema.freshDatabase = Some "0.5"
  /\ parseFloat "0.5" = confidenceThreshold initialState.
Proof. repeat split. Qed.

(** ** Re-running the schema *)

Module SchemaFacts.
Import Schema.

Lemma find_snoc {A} (f : A -> bool) (l : list A) (x : A) :
  find f (l ++ [x])%list
  = match find f l with
    | Some y => Some y
    | None => if f x then Some x else None
    end.
Proof.
  induction l as [|a l IH]; cbn.
  - reflexivity.
  - destruct (f a); [reflexivity | exact IH].
Qed.

Lemma find_existsb {A} (f : A -> bool) (l : list A) :
  existsb f l = match find f l with Some _ => true | None => false end.
Proof.
  induction l as [|a l IH]; cbn.
  - reflexivity.
  - destruct (f a); [reflexivity | exact IH].
Qed.

Lemma fold_max_bounds (l : SettingsTable) (a : Z) :
  (a <= fold_left (fun m x => Z.max m (id x)) l a)%Z
  /\ (forall x, In x l ->
        (id x <= fold_left (fun m x => Z.max m (id x)) l a)%Z).
Proof.
  revert a.
  induction l as [|y l IH]; intro a; cbn.
  - split; [lia | intros x []].
  - destruct (IH (Z.max a (id y))) as [Hle Hin].
    split; [lia |].
    intros x [<- | Hx]; [lia | apply Hin, Hx].
Qed.

Lemma largestId_above (t : SettingsTable) (r : SettingRow) :
  In r t -> (id r <= largestId t)%Z.
Proof.
  destruct t as [|y t]; [intros [] |].
  cbn [largestId].
  destruct (fold_max_bounds t (id y)) as [Hle Hin].
  intros [<- | Hr]; [exact Hle | apply Hin, Hr].
Qed.

Lemma fold_max_snoc (l : SettingsTable) (a : Z) (r : SettingRow) :
  fold_left (fun m x => Z.max m (id x)) (l ++ [r])%list a
  = Z.max (fold_left (fun m x => Z.max m (id x)) l a) (id r).
Proof. rewrite fold_left_app. reflexivity. Qed.

Lemma largestId_snoc (t : SettingsTable) (r : SettingRow) :
  (largestId t <= id r)%Z ->
  largestId (t ++ [r])%list = id r.
Proof.
  destruct t as [|y t]; intros Hle.
  - reflexivity.
  - cbn [largestId app] in *.
    rewrite fold_max_snoc. lia.
Qed.

(** What one row does when an id is left: the high-water mark goes up by
    one, whether the row is inserted or ignored, and the value of its key
    is the old one if there was one and the new one otherwise. *)
Lemma insertOrIgnore_done (k v d : string) (db : Database) :
  (highWater db < maxRowid)%Z ->
  exists db',
    insertOrIgnore k v d db = Done db'
    /\ highWater db' = (highWater db + 1)%Z
    /\ (forall k',
          lookup k' (settings db')
          = if String.eqb k' k
            then Some (match lookup k (settings db) with
                       | Some v0 => v0
                       | None => v
                       end)
            else lookup k' (settings db))
    /\ (forall k',
          existsb (fun r => String.eqb (key r) k') (settings db')
          = existsb (fun r => String.eqb (key r) k') (settings db)
            || String.eqb k k')
    /\ (NoDup (map key (settings db)) -> NoDup (map key (settings db')))
    /\ (NoDup (map id (settings db)) -> NoDup (map id (settings db'))).
Proof.
  intro Hroom.
  assert (Hseq : (sqlite_sequence db <= highWater db)%Z)
    by (unfold highWater; lia).
  assert (Hlarge : (largestId (settings db) <= highWater db)%Z)
    by (unfold highWater; lia).
  unfold insertOrIgnore, nextId.
  apply Z.ltb_lt in Hroom. rewrite Hroom. apply Z.ltb_lt in Hroom.
  destruct (existsb (fun r => String.eqb (key r) k) (settings db)) eqn:Hk.
  - eexists. split; [reflexivity |].
    cbn [settings sqlite_sequence].
    split; [unfold highWater; cbn [settings sqlite_sequence]; lia |].
    split; [| split; [| split; intro H; exact H]].
    + intro k'.
      destruct (String.eqb_spec k' k) as [-> | _]; [| reflexivity].
      unfold lookup. rewrite find_existsb in Hk.
      destruct (find (fun r => String.eqb (key r) k) (settings db));
        [reflexivity | discriminate Hk].
    + intro k'.
      destruct (String.eqb_spec k k') as [<- | _].
      * rewrite Hk. reflexivity.
      * rewrite orb_false_r. reflexivity.
  - eexists. split; [reflexivity |].
    cbn [settings sqlite_sequence].
    split.
    { unfold highWater at 1. cbn [settings sqlite_sequence].
      rewrite largestId_snoc; cbn [id]; lia. }
    split; [| split; [| split]].
    + intro k'. unfold lookup. rewrite find_snoc. cbn [key value].
      rewrite find_existsb in Hk.
      destruct (String.eqb_spec k' k) as [-> | Hneq].
      * destruct (find (fun r => String.eqb (key r) k) (settings db));
          [discriminate Hk |].
        rewrite String.eqb_refl. reflexivity.
      * apply String.eqb_neq in Hneq.
        rewrite String.eqb_sym, Hneq.
        destruct (find (fun r => String.eqb (key r) k') (settings db));
          reflexivity.
    + intro k'. rewrite existsb_app. cbn. rewrite orb_false_r. reflexivity.
    + intro Hkeys. rewrite map_app. cbn [map key].
      apply NoDup_app; [exact Hkeys | constructor; [intros [] | constructor] |].
      intros a Ha [Ha' | []]. subst a.
      apply in_map_iff in Ha as [r [Hkey Hr]].
      assert (Hex : existsb (fun r => String.eqb (key r) k) (settings db)
                    = true).
      { apply existsb_exists. exists r. split; [exact Hr |].
        rewrite Hkey. apply String.eqb_refl. }
      congruence.
    + intro Hids. rewrite map_app. cbn [map id].
      apply NoDup_app; [exact Hids | constructor; [intros [] | constructor] |].
      intros a Ha [Ha' | []]. subst a.
      apply in_map_iff in Ha as [r [Hid Hr]].
      pose proof (largestId_above _ r Hr). lia.
Qed.

Lemma insertOrIgnore_full (k v d : string) (db : Database) :
  (maxRowid <= highWater db)%Z ->
  insertOrIgnore k v d db = SQLITE_FULL.
Proof.
  intro Hfull.
  unfold insertOrIgnore, nextId.
  apply Z.ltb_ge in Hfull. rewrite Hfull. reflexivity.
Qed.

Lemma lookup_freshDatabase (k : string) :
  lookup k freshDatabase
  = if String.eqb k "confidence_threshold" then Some "0.5"
    else if String.eqb k "model_path" then Some "models/default.pt"
    else if String.eqb k "camera_device_id" then Some "0"
    else None.
Proof.
  destruct (String.eqb_spec k "confidence_threshold") as [-> | N3];
    [reflexivity |].
  destruct (String.eqb_spec k "model_path") as [-> | N2]; [reflexivity |].
  destruct (String.eqb_spec k "camera_device_id") as [-> | N1];
    [reflexivity |].
  apply String.eqb_neq in N1, N2, N3.
  rewrite String.eqb_sym in N1, N2, N3.
  unfold lookup.
  replace freshDatabase
    with [mkRow 1 "camera_device_id" "0" "ID of the camera device to use";
          mkRow 2 "model_path" "models/default.pt"
            "Path to the inference model";
          mkRow 3 "confidence_threshold" "0.5"
            "Minimum confidence threshold for detections"]
    by reflexivity.
  cbn [find key].
  rewrite N1, N2, N3. reflexivity.
Qed.

(** The statement as a whole: it goes through exactly when three ids are
    left. *)
Lemma seedStatement_outcome (db : Database) :
  if (3 <=? idsLeft db)%Z then
    exists db',
      seedStatement db = Done db'
      /\ (forall k,
            lookup k (settings db')
            = match lookup k (settings db) with
              | Some v0 => Some v0
              | None => lookup k freshDatabase
              end)
      /\ (forall k, In k ["camera_device_id"; "model_path";
                          "confidence_threshold"] ->
            existsb (fun r => String.eqb (key r) k) (settings db') = true)
      /\ (forall k,
            existsb (fun r => String.eqb (key r) k) (settings db) = true ->
            existsb (fun r => String.eqb (key r) k) (settings db') = true)
      /\ (NoDup (map key (settings db)) -> NoDup (map key (settings db')))
      /\ (NoDup (map id (settings db)) -> NoDup (map id (settings db')))
  else seedStatement db = SQLITE_FULL.
Proof.
  unfold idsLeft.
  destruct (Z.leb_spec 3 (maxRowid - highWater db)) as [Hroom | Hfull].
  - destruct (insertOrIgnore_done "camera_device_id" "0"
                "ID of the camera device to use" db ltac:(lia))
      as [db1 [H1 [Hw1 [Hl1 [He1 [Hk1 Hi1]]]]]].
    destruct (insertOrIgnore_done "model_path" "models/default.pt"
                "Path to the inference model" db1 ltac:(lia))
      as [db2 [H2 [Hw2 [Hl2 [He2 [Hk2 Hi2]]]]]].
    destruct (insertOrIgnore_done "confidence_threshold" "0.5"
                "Minimum confidence threshold for detections" db2 ltac:(lia))
      as [db3 [H3 [Hw3 [Hl3 [He3 [Hk3 Hi3]]]]]].
    exists db3.
    split.
    { unfold seedStatement, defaultSettings. cbn [insertRows].
      rewrite H1, H2, H3. reflexivity. }
    split; [| split; [| split; [| split]]].
    + intro k.
      rewrite Hl3. rewrite !Hl2. rewrite !Hl1.
      cbn [String.eqb Ascii.eqb Bool.eqb].
      rewrite lookup_freshDatabase.
      destruct (String.eqb_spec k "confidence_threshold") as [-> | N3];
        [destruct (lookup "confidence_threshold" (settings db));
         reflexivity |].
      destruct (String.eqb_spec k "model_path") as [-> | N2];
        [destruct (lookup "model_path" (settings db)); reflexivity |].
      destruct (String.eqb_spec k "camera_device_id") as [-> | N1];
        [destruct (lookup "camera_device_id" (settings db)); reflexivity |].
      destruct (lookup k (settings db)); reflexivity.
    + intros k Hk.
      rewrite He3, He2, He1.
      destruct Hk as [<- | [<- | [<- | []]]]; cbn;
        rewrite ?orb_true_r; reflexivity.
    + intros k Hk. rewrite He3, He2, He1, Hk. reflexivity.
    + intro H. apply Hk3, Hk2, Hk1, H.
    + intro H. apply Hi3, Hi2, Hi1, H.
  - unfold seedStatement, defaultSettings. cbn [insertRows].
    destruct (Z.lt_ge_cases (highWater db) maxRowid) as [Hlt | Hge];
      [| rewrite insertOrIgnore_full by lia; reflexivity].
    destruct (insertOrIgnore_done "camera_device_id" "0"
                "ID of the camera device to use" db Hlt)
      as [db1 [H1 [Hw1 _]]].
    rewrite H1.
    destruct (Z.lt_ge_cases (highWater db1) maxRowid) as [Hlt1 | Hge1];
      [| rewrite insertOrIgnore_full by lia; reflexivity].
    destruct (insertOrIgnore_done "model_path" "models/default.pt"
                "Path to the inference model" db1 Hlt1)
      as [db2 [H2 [Hw2 _]]].
    rewrite H2.
    rewrite insertOrIgnore_full by lia. reflexivity.
Qed.

(** X17. The seed statement either fills gaps or does nothing.  When three
    ids are left (each of its rows takes one, inserted or ignored), every
    key ends up with the value the table already had for it, or with its
    seeded default if the table had none; when fewer are left, the
    statement fails with SQLITE_FULL and the database is what it was. *)
Theorem applySchema_fills_gaps (db : Database) (k : string) :
  if (3 <=? idsLeft db)%Z then
    seedStatement db = Done (applySchema db)
    /\ lookup k (settings (applySchema db))
       = match lookup k (settings db) with
         | Some v0 => Some v0
         | None => lookup k freshDatabase
         end
  else seedStatement db = SQLITE_FULL /\ applySchema db = db.
Proof.
  pose proof (seedStatement_outcome db) as H.
  unfold applySchema.
  destruct (3 <=? idsLeft db)%Z.
  - destruct H as [db' [Hdone [Hlookup _]]].
    rewrite Hdone. split; [reflexivity | apply Hlookup].
  - rewrite H. split; reflexivity.
Qed.

(** X18. Running the seed statement a second time changes no row of the
    settings table, whatever the table and the id counter were (the
    counter itself may move on). *)
Theorem applySchema_idempotent (db : Database) :
  settings (applySchema (applySchema db)) = settings (applySchema db).
Proof.
  pose proof (seedStatement_outcome db) as H1.
  unfold applySchema at 2 3.
  destruct (3 <=? idsLeft db)%Z.
  - destruct H1 as [db1 [Hdone1 [_ [Hseeded _]]]].
    rewrite Hdone1.
    pose proof (seedStatement_outcome db1) as H2.
    unfold applySchema.
    destruct (3 <=? idsLeft db1)%Z; [| rewrite H2; reflexivity].
    destruct H2 as [db2 [Hdone2 _]].
    rewrite Hdone2.
    unfold seedStatement, defaultSettings in Hdone2.
    cbn [insertRows] in Hdone2.
    unfold insertOrIgnore in Hdone2.
    destruct (nextId db1) as [i1 |]; [| discriminate Hdone2].
    rewrite (Hseeded "camera_device_id") in Hdone2 by (cbn; auto).
    cbn [settings] in Hdone2.
    destruct (nextId (mkDatabase (settings db1) i1)) as [i2 |];
      [| discriminate Hdone2].
    cbn [settings] in Hdone2.
    rewrite (Hseeded "model_path") in Hdone2 by (cbn; auto).
    destruct (nextId (mkDatabase (settings db1) i2)) as [i3 |];
      [| discriminate Hdone2].
    cbn [settings] in Hdone2.
    rewrite (Hseeded "confidence_threshold") in Hdone2 by (cbn; auto).
    injection Hdone2 as <-. reflexivity.
  - rewrite H1.
    unfold applySchema. rewrite H1. reflexivity.
Qed.

(** X19. The seed statement keeps the keys and the ids of the settings
    table pairwise distinct: a table in which they are distinct stays so,
    whether the statement goes through or fails. *)
Theorem applySchema_keeps_keys_and_ids_unique (db : Database)
    (Hunique : NoDup (map key (settings db)) /\ NoDup (map id (settings db))) :
  NoDup (map key (settings (applySchema db)))
  /\ NoDup (map id (settings (applySchema db))).
Proof.
  pose proof (seedStatement_outcome db) as H.
  unfold applySchema.
  destruct (3 <=? idsLeft db)%Z.
  - destruct H as [db' [Hdone [_ [_ [_ [Hkeys Hids]]]]]].
    rewrite Hdone.
    split; [apply Hkeys, Hunique | apply Hids, Hunique].
  - rewrite H. exact Hunique.
Qed.

End SchemaFacts.

(** * The earlier revision of the page *)

Module EarlierFacts.
Import Earlier.

Ltac run_earlier :=
  unfold step, dispatch, run, execState; cbn.

(** ** Reading the settings off an untyped body *)

(** X20. On a body whose [success] is truthy, the earlier page takes the
    threshold from [settings.confidence_threshold] at top level: a body
    without [settings] makes the read throw, which is caught and written to
    the console with the state unchanged; [settings] without the threshold
    changes nothing; otherwise the threshold becomes the value found. *)
Theorem loadSettings_by_members
    (w : World) (ms : list (string * json))
    (Hok : truthy (getProp (Value (JObject ms)) "success") = true) :
  (member "settings" ms = None ->
   step w (SettingsFulfilled (JObject ms))
   = mkWorld (st w)
       (effects w ++ [ConsoleError "Error loading settings:"])%list)
  /\ (forall ss,
         member "settings" ms = Some (JObject ss) ->
         member "confidence_threshold" ss = None ->
         step w (SettingsFulfilled (JObject ms)) = w)
  /\ (forall ss v,
         member "settings" ms = Some (JObject ss) ->
         member "confidence_threshold" ss = Some v ->
         step w (SettingsFulfilled (JObject ms))
         = mkWorld
             (mkState (isConnected (st w)) (logs (st w)) (isCapturing (st w))
                (captureResult (st w)) v (isSavingThreshold (st w)))
             (effects w)).
Proof.
  destruct w as [s e].
  unfold step, dispatch, run, execState, loadSettings_fulfilled.
  cbn [getProp] in *.
  destruct (member "success" ms) as [ok |]; [| discriminate Hok].
  rewrite Hok.
  split; [| split].
  - intros Hs. rewrite Hs. reflexivity.
  - intros ss Hs Ht. rewrite Hs. cbn [getProp]. rewrite Ht. reflexivity.
  - intros ss v Hs Ht. rewrite Hs. cbn [getProp]. rewrite Ht. reflexivity.
Qed.

(** ** Saving the threshold *)

(** X21. The saving flag is raised by the save and lowered by every way the
    request can end (any reply body, [null] included, and a rejection);
    none of them touches the threshold. *)
Theorem saving_flag_is_lowered_by_every_outcome (w : World) (body : json) :
  isSavingThreshold (st (step w SliderAfterChange)) = true
  /\ (let w' := step w (SaveFulfilled body) in
      isSavingThreshold (st w') = false
      /\ confidenceThreshold (st w') = confidenceThreshold (st w))
  /\ (let w' := step w SaveRejected in
      isSavingThreshold (st w') = false
      /\ confidenceThreshold (st w') = confidenceThreshold (st w)).
Proof.
  split; [reflexivity |].
  split; [| split; reflexivity].
  unfold step, dispatch, run, execState, saveThreshold_fulfilled.
  destruct (getProp (Value body) "success") as [| ok |] eqn:Hread;
    try destruct (truthy (Value ok));
    split; reflexivity.
Qed.

(** ** The trigger *)

(** X22. A reply to the capture request clears the busy flag unless its
    [success] is truthy, a body that cannot be read included; a rejection
    and the [capture_result] event always clear it. *)
Theorem capture_outcomes (w : World) (body : json)
    (result : CaptureResult.t) :
  isCapturing (st (step w (CaptureFulfilled body)))
  = (if truthy (getProp (Value body) "success")
     then isCapturing (st w) else false)
  /\ isCapturing (st (step w CaptureRejected)) = false
  /\ isCapturing (st (step w (SocketCaptureResult result))) = false.
Proof.
  split; [| split; reflexivity].
  unfold step, dispatch, run, execState, handleCapture_fulfilled.
  destruct (getProp (Value body) "success") as [| ok |] eqn:Hread;
    try destruct (truthy (Value ok));
    reflexivity.
Qed.

Lemma steps_app (es1 es2 : list Event) (w : World) :
  steps (es1 ++ es2) w = steps es2 (steps es1 w).
Proof. apply fold_left_app. Qed.

(** X23. The handler of the earlier page has no guard of its own: each of [n]
    clicks posts a capture request, whatever the busy flag says; only the
    button, which a click leaves disabled, stands in the way. *)
Theorem every_click_posts_a_request (n : nat) (w : World) :
  effects (steps (repeat CaptureClicked n) w)
  = (effects w ++ repeat HttpPostCapture n)%list
  /\ (n <> 0%nat ->
      triggerDisabled (st (steps (repeat CaptureClicked n) w)) = true).
Proof.
  revert w.
  induction n as [|n IH]; intro w.
  - split; [symmetry; apply app_nil_r | intro H; contradiction H; reflexivity].
  - change (steps (repeat CaptureClicked (S n)) w)
      with (steps (repeat CaptureClicked n) (step w CaptureClicked)).
    destruct (IH (step w CaptureClicked)) as [Heff Hdis].
    split.
    + rewrite Heff. cbn. rewrite <- app_assoc. reflexivity.
    + intros _. destruct n as [|n'].
      * reflexivity.
      * apply Hdis. discriminate.
Qed.

(** ** The log list *)

(** X24. The earlier page writes no log entry of its own: only the two log
    events of the socket change the log list. *)
Theorem logs_come_from_the_server_only (w : World) (e : Event)
    (Hother : carriesServerLogs e = false) :
  logs (st (step w e)) = logs (st w).
Proof.
  destruct e; try discriminate Hother; try reflexivity;
    unfold step, dispatch, run, execState, loadSettings_fulfilled,
      handleCapture_fulfilled, saveThreshold_fulfilled;
    destruct (getProp (Value response_data) "success") as [| ok |];
    try destruct (truthy (Value ok));
    try destruct (getProp (getProp (Value response_data) "settings")
                    "confidence_threshold");
    reflexivity.
Qed.

(** ** Tagging a message with a module *)

Lemma prefix_app (needle s x : string) :
  String.prefix needle s = true -> String.prefix needle (s ++ x) = true.
Proof.
  revert s.
  induction needle as [|c needle IH]; intros s H.
  - destruct s; cbn; [destruct x |]; reflexivity.
  - destruct s as [|d s]; [discriminate H |].
    cbn in *.
    destruct (Ascii.ascii_dec c d); [apply IH, H | discriminate H].
Qed.

Lemma includes_app (s needle x : string) :
  includes s needle = true -> includes (s ++ x) needle = true.
Proof.
  induction s as [|c s IH]; intro H.
  - cbn in H.
    destruct needle; [| discriminate H].
    destruct x; reflexivity.
  - cbn [includes] in H.
    change (String c s ++ x) with (String c (s ++ x)).
    cbn [includes].
    destruct (String.prefix needle (String c s)) eqn:Hp.
    + change (String c (s ++ x)) with (String c s ++ x).
      rewrite (prefix_app _ _ x Hp). reflexivity.
    + destruct (String.prefix needle (String c (s ++ x))); [reflexivity |].
      apply IH, H.
Qed.

Lemma prefix_self_app (needle x : string) :
  String.prefix needle (needle ++ x) = true.
Proof.
  induction needle as [|c needle IH]; cbn.
  - destruct x; reflexivity.
  - destruct (Ascii.ascii_dec c c); [exact IH | contradiction].
Qed.

Lemma includes_intro (a needle b : string) :
  includes (a ++ needle ++ b) needle = true.
Proof.
  induction a as [|c a IH].
  - cbn [append].
    destruct (needle ++ b) eqn:Hnb;
      cbn [includes]; rewrite <- Hnb, prefix_self_app; reflexivity.
  - change (String c a ++ needle ++ b) with (String c (a ++ needle ++ b)).
    cbn [includes].
    destruct (String.prefix needle (String c (a ++ needle ++ b)));
      [reflexivity | exact IH].
Qed.

Lemma moduleType_unknown_iff (message : string) :
  moduleType message = "unknown" <-> mentionsModule message = false.
Proof.
  unfold moduleType, mentionsModule.
  destruct (startsWith message "Middleware:");
    [split; discriminate |].
  repeat match goal with
         | |- context [includes message ?k] =>
             destruct (includes message k); cbn;
             try (split; discriminate)
         end.
  split; reflexivity.
Qed.

Lemma mentionsModule_app (message x : string) :
  mentionsModule message = true -> mentionsModule (message ++ x) = true.
Proof.
  unfold mentionsModule, startsWith.
  intro H.
  repeat (apply orb_true_iff in H; destruct H as [H | H]);
    first [ apply (prefix_app _ _ x) in H | apply (includes_app _ _ x) in H ];
    rewrite H; cbn; rewrite ?orb_true_r; reflexivity.
Qed.

(** X25. A message that has a module tag keeps one when text is appended to it
    (the tag may change, but never back to "unknown"). *)
Theorem appended_text_keeps_a_tag (message x : string)
    (Htagged : moduleType message <> "unknown") :
  moduleType (message ++ x) <> "unknown".
Proof.
  intro Hunknown.
  apply moduleType_unknown_iff in Hunknown.
  destruct (mentionsModule message) eqn:Hm.
  - rewrite (mentionsModule_app _ x Hm) in Hunknown. discriminate.
  - apply Htagged, moduleType_unknown_iff, Hm.
Qed.

(** X26. The first test that matches decides: a message that mentions the
    backend anywhere is tagged "backend", whatever else it mentions,
    unless it starts with the middleware prefix. *)
Theorem backend_mention_wins (before after : string)
    (Hprefix : startsWith (before ++ "backend" ++ after) "Middleware:"
               = false) :
  moduleType (before ++ "backend" ++ after) = "backend".
Proof.
  unfold moduleType.
  rewrite Hprefix, (includes_intro before "backend" after), orb_true_r.
  reflexivity.
Qed.

End EarlierFacts.

(** * Concrete runs

    The runs below take [decimalToFixed] for the built-in [toFixed]. *)

Example parseFloat_decimals :
  parseFloat "0.5" = 0.5%float /\ parseFloat "0.85" = 0.85%float
  /\ parseFloat "1" = 1%float /\ parseFloat "0" = 0%float.
Proof. repeat split. Qed.

Example rangeValue_stops :
  rangeValue 0 = "0" /\ rangeValue 7 = "0.07" /\ rangeValue 50 = "0.5"
  /\ rangeValue 85 = "0.85" /\ rangeValue 100 = "1".
Proof. repeat split. Qed.

Example decimalToFixed_percent :
  decimalToFixed (0.85 * 100)%float 2 = "85.00"
  /\ decimalToFixed 0.9%float 2 = "0.90".
Proof. vm_compute. split; reflexivity. Qed.

(** A page that lost its socket, was set to threshold 0.9 and simulated a
    capture. *)
Example simulated_capture_run :
  let w := steps decimalToFixed
             [SocketConnectError "timeout" "t0"; SliderChanged "0.9";
              SliderReleased "t1"; CaptureClicked 1000 "t2";
              TimerFired TimerSimulatedCapture "t3"] initialWorld in
  map LogMessage.message (logs (st w))
  = ["WebSocket connection error: timeout. Switched to test mode.";
     "Test Mode: Confidence threshold updated to 0.90";
     "Initiating image capture and processing";
     "Test Mode: Simulated capture completed. Result: PASS (Confidence: 85.00%)"]
  /\ isCapturing (st w) = false
  /\ processingTime (st w) = Some 1500%Z.
Proof. vm_compute. repeat split. Qed.

(** A log history replayed after the connection entry replaces it. *)
Example history_replaces_connection_entry :
  let replayed := [LogMessage.mk "s1" "INFO" "Middleware: started" None;
                   LogMessage.mk "s2" "DEBUG" "Camera: ready" None] in
  let w := steps decimalToFixed
             [SocketConnect "t0"; SocketLogHistory replayed] initialWorld in
  logs (st w) = replayed
  /\ effects w = [ConsoleLog "Connected to WebSocket";
                  SocketEmit "get_status"; SocketEmit "get_logs"].
Proof. vm_compute. split; reflexivity. Qed.

(** A failed copy after a connection: one more line on the console, the
    same single entry in the log list. *)
Example clipboard_failure_run :
  let w := steps decimalToFixed [SocketConnect "t0"; CopyClicked] initialWorld in
  let w' := step decimalToFixed w CopyRejected in
  effects w'
  = [ConsoleLog "Connected to WebSocket"; SocketEmit "get_status";
     SocketEmit "get_logs";
     ClipboardWriteText "[t0] [INFO] [frontend] Connected to server";
     ConsoleError "Failed to copy logs:"]
  /\ logs (st w') = logs (st w)
  /\ List.length (logs (st w')) = 1%nat.
Proof. vm_compute. repeat split. Qed.

(** The scenarios of the settings endpoint: 1.5 is rejected and the store
    keeps its value, 0.7 is accepted and stored. *)
Example postSettings_scenarios :
  let store := Middleware.saveSetting "confidence_threshold" 0.5%float
                 (fun _ => None) in
  let '(rejected, store1) := Middleware.postSettings 1.5%float store in
  let '(accepted, store2) := Middleware.postSettings 0.7%float store in
  rejected = Middleware.mkReply false (Some Middleware.InvalidArgument)
  /\ store1 "confidence_threshold" = Some 0.5%float
  /\ accepted = Middleware.mkReply true None
  /\ store2 "confidence_threshold" = Some 0.7%float.
Proof. vm_compute. repeat split. Qed.

(** An ignored row uses an id up, and with fewer than three ids left the
    statement fails and seeds nothing. *)
Example seedStatement_runs :
  let custom := Schema.mkDatabase
                  [Schema.mkRow 1 "camera_device_id" "2" "set by hand"] 1 in
  let last := Schema.mkDatabase
                [Schema.mkRow (Schema.maxRowid - 2) "camera_device_id" "2"
                   "set by hand"] (Schema.maxRowid - 2) in
  map (fun r => (Schema.id r, Schema.key r, Schema.value r))
    (Schema.settings (Schema.applySchema custom))
  = [(1%Z, "camera_device_id", "2"); (3%Z, "model_path", "models/default.pt");
     (4%Z, "confidence_threshold", "0.5")]
  /\ Schema.sqlite_sequence (Schema.applySchema custom) = 4%Z
  /\ Schema.seedStatement last = Schema.SQLITE_FULL
  /\ Schema.applySchema last = last.
Proof. vm_compute. repeat split. Qed.

Example freshDatabase_rows :
  map (fun r => (Schema.id r, Schema.key r, Schema.value r))
    Schema.freshDatabase
  = [(1%Z, "camera_device_id", "0");
     (2%Z, "model_path", "models/default.pt");
     (3%Z, "confidence_threshold", "0.5")].
Proof. reflexivity. Qed.

(** A settings reply that reports success and carries a [data] without
    [settings] lands in the [catch]: test mode, one ERROR entry, the
    threshold as it was.  So does a save reply with a [null] body. *)
Example unreadable_replies_run :
  let body := JObject [("success", JBool true); ("data", JObject [])] in
  exists typed,
    asApiResponse asSettingsData body = Some typed
    /\ (let w := step decimalToFixed initialWorld
                   (SettingsFulfilled (Some typed) "t0") in
        isTestMode (st w) = true
        /\ map LogMessage.level (logs (st w)) = ["ERROR"]
        /\ confidenceThreshold (st w) = 0.5%float)
    /\ (let w := step decimalToFixed initialWorld
                   (SaveFulfilled 0.7%float None
                      (Some "response.data is null") "t1") in
        isTestMode (st w) = true
        /\ map LogMessage.message (logs (st w))
           = ["Failed to update threshold: response.data is null. Switched to test mode."]).
Proof.
  eexists. split; [reflexivity |].
  vm_compute. repeat split.
Qed.

(** C1, refuted as stated: with the threshold at 0.9 the simulated capture
    still records PASS, although its confidence 0.85 is below the
    threshold and the rule of the post-processor gives FAIL. *)
Lemma C1_counterexample :
  let w := steps decimalToFixed
             [SocketConnectError "timeout" "t0"; SliderChanged "0.9";
              SliderReleased "t1"; CaptureClicked 1000 "t2";
              TimerFired TimerSimulatedCapture "t3"] initialWorld in
  let t := confidenceThreshold (st w) in
  t = 0.9%float
  /\ exists r,
       captureResult (st w) = Some r
       /\ CaptureResult.result r = "PASS"
       /\ geb (CaptureResult.confidence r) t = false
       /\ PostProcessor.evaluate (CaptureResult.confidence r) t
          = PostProcessor.FAIL
       /\ ~ (CaptureResult.result r = "PASS"
             <-> geb (CaptureResult.confidence r) t = true).
Proof.
  split; [vm_compute; reflexivity |].
  exists mockResult.
  split; [vm_compute; reflexivity |].
  split; [reflexivity |].
  split; [vm_compute; reflexivity |].
  split; [vm_compute; reflexivity |].
  intros [H _].
  specialize (H eq_refl).
  vm_compute in H.
  discriminate H.
Qed.

(** C2, refuted as stated: a successful body with [settings] at top level
    and threshold 0.7 leaves the displayed threshold at its initial 0.5. *)
Lemma C2_counterexample :
  exists body,
    asApiResponse asSettingsData (topLevelSettings 0.7%float) = Some body
    /\ ApiResponse.success body = true
    /\ confidenceThreshold
         (st (step decimalToFixed initialWorld
               (SettingsFulfilled (Some body) "t0")))
       = 0.5%float
    /\ confidenceThreshold
         (st (step decimalToFixed initialWorld
               (SettingsFulfilled (Some body) "t0")))
       <> 0.7%float.
Proof.
  eexists.
  split; [reflexivity |].
  split; [reflexivity |].
  split; [reflexivity |].
  intro H.
  apply (f_equal (fun x => PrimFloat.eqb x 0.7%float)) in H.
  vm_compute in H.
  discriminate H.
Qed.

(** C6, refuted as stated: no capacity bounds the log list, since a batch
    of appends longer than the capacity makes the list longer than it. *)
Lemma C6_counterexample :
  ~ exists capacity : nat,
      forall ms : list LogMessage.t,
        (List.length (logs (st (addLogs ms initialWorld))) <= capacity)%nat.
Proof.
  intros [capacity Hbound].
  specialize (Hbound (repeat (LogMessage.mk "t" "INFO" "m" None) (S capacity))).
  rewrite logs_addLogs in Hbound.
  cbn [initialWorld st initialState logs app] in Hbound.
  rewrite repeat_length in Hbound.
  lia.
Qed.

(** C7, refuted as stated: a successful response that carries the result
    leaves the capture in progress and records nothing. *)
Lemma C7_counterexample :
  let w := step decimalToFixed initialWorld (CaptureClicked 1000 "t0") in
  let w' := step decimalToFixed w
              (CaptureFulfilled
                 (Some (ApiResponse.mk true (Some mockResult) None)) "t1") in
  isCapturing (st w) = true
  /\ effects w = [HttpPostCapture 0.5%float]
  /\ isCapturing (st w') = true
  /\ captureResult (st w') = None.
Proof. vm_compute. repeat split. Qed.

(** The hypotheses of C3, C4 and C7 at concrete inputs. *)

Lemma C3_witness :
  Middleware.inUnitInterval 1.5%float = false
  /\ (Middleware.postSettings 1.5%float (fun _ => Some 0.5%float)
      = (Middleware.mkReply false (Some Middleware.InvalidArgument),
         fun _ => Some 0.5%float)
      /\ (let sent := parseFloat (rangeValue 85) in
          Middleware.inUnitInterval sent = true
          /\ effects (steps decimalToFixed
                        [SliderChanged (rangeValue 85); SliderReleased "t"]
                        initialWorld)
             = if isTestMode (st initialWorld) then effects initialWorld
               else (effects initialWorld ++ [HttpPostSettings sent])%list)).
Proof.
  split.
  - reflexivity.
  - apply (C3_threshold_outside_unit_interval_rejected decimalToFixed
             1.5%float (fun _ => Some 0.5%float) initialWorld 85 "t").
    reflexivity.
Defined.

Lemma C4_witness :
  let w := step decimalToFixed initialWorld (CaptureClicked 1000 "t0") in
  isCapturing (st w) = true
  /\ step decimalToFixed w (CaptureClicked 2000 "t1") = w.
Proof.
  split.
  - reflexivity.
  - apply (C4_trigger_while_capturing_is_noop decimalToFixed).
    reflexivity.
Defined.

Lemma C7_witness :
  let w := step decimalToFixed initialWorld (CaptureClicked 1000 "t0") in
  let body := ApiResponse.mk true (Some mockResult) None in
  ApiResponse.success body = true
  /\ (step decimalToFixed w (CaptureFulfilled (Some body) "t1") = w
      /\ (let w' := steps decimalToFixed
                      [CaptureFulfilled (Some body) "t1";
                       SocketCaptureResult mockResult 2500 "t2"] w in
          captureResult (st w') = Some mockResult
          /\ isCapturing (st w') = false)).
Proof.
  split.
  - reflexivity.
  - apply (C7_successful_response_changes_nothing decimalToFixed).
    reflexivity.
Defined.

(** The hypotheses of the further properties at concrete inputs. *)

Lemma busy_flag_witness :
  let w := step decimalToFixed initialWorld (CaptureClicked 1000 "t0") in
  let e := SocketLogMessage (LogMessage.mk "s1" "INFO" "Camera: ready" None) in
  isTrigger e = false /\ isTerminal e = false
  /\ isCapturing (st (step decimalToFixed w e)) = isCapturing (st w).
Proof.
  split; [reflexivity |]. split; [reflexivity |].
  apply (busy_flag_moves_only_at_trigger_and_outcome decimalToFixed);
    reflexivity.
Defined.

Lemma every_outcome_witness :
  let w := step decimalToFixed initialWorld (CaptureClicked 1000 "t0") in
  let body := ApiResponse.mk false (@None CaptureResult.t) (Some "busy") in
  ApiResponse.success body = false
  /\ (isCapturing
        (st (step decimalToFixed w (SocketCaptureResult mockResult 1500 "t1")))
      = false
      /\ isCapturing
           (st (step decimalToFixed w (TimerFired TimerSimulatedCapture "t1")))
         = false
      /\ (let w' := step decimalToFixed w (CaptureFulfilled (Some body) "t1") in
          isCapturing (st w') = false /\ captureStartTime (refs w') = None)
      /\ (let w' := step decimalToFixed w (CaptureRejected None "t1") in
          isCapturing (st w') = false /\ captureStartTime (refs w') = None)).
Proof.
  split; [reflexivity |].
  apply (every_outcome_clears_busy_flag decimalToFixed).
  reflexivity.
Defined.

Lemma log_list_extended_witness :
  let e := CaptureClicked 1000 "t0" in
  replacesLogs e = false
  /\ exists new,
       logs (st (step decimalToFixed initialWorld e))
       = (logs (st initialWorld) ++ new)%list
       /\ (List.length new <= 1)%nat.
Proof.
  split; [reflexivity |].
  apply (log_list_is_extended_by_at_most_one decimalToFixed).
  reflexivity.
Defined.

Lemma own_entries_witness :
  let e := SocketConnect "t0" in
  let entry := LogMessage.mk "t0" "INFO" "Connected to server"
                 (Some "frontend") in
  carriesServerLogs e = false
  /\ In entry (logs (st (step decimalToFixed initialWorld e)))
  /\ (In entry (logs (st initialWorld))
      \/ (getLogLevelClass (LogMessage.level entry) <> ""
          /\ LogMessage.module entry <> None)).
Proof.
  split; [reflexivity |].
  split; [left; reflexivity |].
  apply (own_entries_have_level_class_and_module decimalToFixed
           initialWorld (SocketConnect "t0")).
  - reflexivity.
  - left. reflexivity.
Defined.

Lemma test_mode_no_http_witness :
  let w := step decimalToFixed initialWorld
             (SocketConnectError "timeout" "t0") in
  let es := [SliderChanged "0.9"; SliderReleased "t1";
             CaptureClicked 1000 "t2"] in
  isTestMode (st w) = true
  /\ forallb (fun e => negb (isMounted e)) es = true
  /\ exists new,
       effects (steps decimalToFixed es w) = (effects w ++ new)%list
       /\ existsb isHttp new = false.
Proof.
  split; [reflexivity |]. split; [reflexivity |].
  apply (test_mode_sends_no_http decimalToFixed); reflexivity.
Defined.

Lemma threshold_moves_witness :
  let w := step decimalToFixed initialWorld
             (SocketConnectError "timeout" "t0") in
  let e := SliderReleased "t1" in
  setsThreshold e = false
  /\ confidenceThreshold (st (step decimalToFixed w e))
     = confidenceThreshold (st w).
Proof.
  split; [reflexivity |].
  apply (threshold_moves_only_with_slider_or_settings decimalToFixed).
  reflexivity.
Defined.

Lemma failed_save_witness :
  let body := ApiResponse.mk false (@None unit) (Some "read-only") in
  let sent := parseFloat (rangeValue 85) in
  let released := steps decimalToFixed
                    [SliderChanged (rangeValue 85); SliderReleased "t1"]
                    initialWorld in
  isTestMode (st initialWorld) = false
  /\ ApiResponse.success body = false
  /\ ((let w' := step decimalToFixed released
                    (SaveFulfilled sent (Some body) None "t2") in
       confidenceThreshold (st w') = sent /\ loggedError released w')
      /\ (let w' := step decimalToFixed released (SaveRejected None "t2") in
          confidenceThreshold (st w') = sent /\ loggedError released w'
          /\ isTestMode (st w') = true)).
Proof.
  split; [reflexivity |]. split; [reflexivity |].
  apply (failed_save_keeps_unsaved_threshold decimalToFixed initialWorld 85
           "t1" "t2" (ApiResponse.mk false None (Some "read-only")) None None);
    reflexivity.
Defined.

Lemma processing_time_witness :
  (1000 <> 0)%Z /\ (1200 <> 0)%Z
  /\ isCapturing (st initialWorld) = false
  /\ ((let w' := steps decimalToFixed
                   [CaptureClicked 1000 "t0";
                    SocketCaptureResult mockResult 1500 "t1"] initialWorld in
       processingTime (st w') = Some (1500 - 1000)%Z
       /\ captureStartTime (refs w') = None)
      /\ (let w' := steps decimalToFixed
                      [CaptureClicked 1000 "t0"; SocketCaptureStarted 1200;
                       SocketCaptureResult mockResult 1500 "t1"]
                      initialWorld in
          processingTime (st w') = Some (1500 - 1200)%Z
          /\ captureStartTime (refs w') = None)).
Proof.
  split; [lia |]. split; [lia |]. split; [reflexivity |].
  apply (processing_time_runs_from_latest_start decimalToFixed);
    [reflexivity | lia | lia].
Defined.

Lemma simulated_cycle_witness :
  let w := step decimalToFixed initialWorld
             (SocketConnectError "timeout" "t0") in
  let w' := steps decimalToFixed
              [CaptureClicked 1000 "t1";
               TimerFired TimerSimulatedCapture "t2"] w in
  isCapturing (st w) = false /\ isTestMode (st w) = true
  /\ (isCapturing (st w') = false
      /\ captureResult (st w') = Some mockResult
      /\ processingTime (st w') = Some 1500%Z
      /\ (exists started finished,
             logs (st w') = (logs (st w) ++ [started; finished])%list
             /\ LogMessage.level started = "INFO"
             /\ LogMessage.level finished = "SUCCESS")
      /\ effects w'
         = (effects w ++ [SetTimeout TimerSimulatedCapture 1500])%list
      /\ captureStartTime (refs w') = Some 1000%Z).
Proof.
  split; [reflexivity |]. split; [reflexivity |].
  apply (simulated_capture_cycle decimalToFixed); reflexivity.
Defined.

Lemma copy_mark_witness :
  copySuccess (st initialWorld) = ""
  /\ (copySuccess
        (st (steps decimalToFixed [CopyClicked; CopyFulfilled] initialWorld))
      = "Copied!"
      /\ st (steps decimalToFixed
               [CopyClicked; CopyFulfilled; TimerFired TimerCopyReset "t"]
               initialWorld)
         = st initialWorld).
Proof.
  split; [reflexivity |].
  apply (copy_mark_is_transient decimalToFixed). reflexivity.
Defined.

Lemma schema_unique_witness :
  let db := Schema.mkDatabase
              [Schema.mkRow 7 "confidence_threshold" "0.8" "set by hand"] 7 in
  (NoDup (map Schema.key (Schema.settings db))
   /\ NoDup (map Schema.id (Schema.settings db)))
  /\ (NoDup (map Schema.key (Schema.settings (Schema.applySchema db)))
      /\ NoDup (map Schema.id (Schema.settings (Schema.applySchema db)))).
Proof.
  assert (Hunique :
            NoDup (map Schema.key
                     [Schema.mkRow 7 "confidence_threshold" "0.8"
                        "set by hand"])
            /\ NoDup (map Schema.id
                        [Schema.mkRow 7 "confidence_threshold" "0.8"
                           "set by hand"])).
  { split; (constructor; [intros [] | constructor]). }
  split; [exact Hunique |].
  apply (SchemaFacts.applySchema_keeps_keys_and_ids_unique
           (Schema.mkDatabase
              [Schema.mkRow 7 "confidence_threshold" "0.8" "set by hand"] 7)).
  exact Hunique.
Defined.

Lemma earlier_loadSettings_witness :
  let ms := [("success", JBool true);
             ("settings", JObject [("confidence_threshold",
                                    JNumber 0.7%float)])] in
  Earlier.truthy (Earlier.getProp (Earlier.Value (JObject ms)) "success")
  = true
  /\ Earlier.confidenceThreshold
       (Earlier.st (Earlier.step Earlier.initialWorld
                      (Earlier.SettingsFulfilled (JObject ms))))
     = JNumber 0.7%float.
Proof.
  split; [reflexivity |].
  destruct (EarlierFacts.loadSettings_by_members Earlier.initialWorld
              [("success", JBool true);
               ("settings", JObject [("confidence_threshold",
                                      JNumber 0.7%float)])]
              eq_refl) as [_ [_ Hset]].
  rewrite (Hset [("confidence_threshold", JNumber 0.7%float)]
             (JNumber 0.7%float) eq_refl eq_refl).
  reflexivity.
Defined.

Lemma earlier_logs_witness :
  Earlier.carriesServerLogs Earlier.CaptureClicked = false
  /\ Earlier.logs
       (Earlier.st (Earlier.step Earlier.initialWorld Earlier.CaptureClicked))
     = Earlier.logs (Earlier.st Earlier.initialWorld).
Proof.
  split; [reflexivity |].
  apply EarlierFacts.logs_come_from_the_server_only. reflexivity.
Defined.

Lemma appended_tag_witness :
  Earlier.moduleType "Camera: frame 12" <> "unknown"
  /\ Earlier.moduleType ("Camera: frame 12" ++ " sent on") <> "unknown".
Proof.
  assert (Htagged : Earlier.moduleType "Camera: frame 12" <> "unknown")
    by (vm_compute; discriminate).
  split; [exact Htagged |].
  apply EarlierFacts.appended_text_keeps_a_tag. exact Htagged.
Defined.

Lemma backend_mention_witness :
  Earlier.startsWith ("Camera frame sent to " ++ "backend" ++ " queue")
    "Middleware:" = false
  /\ Earlier.moduleType ("Camera frame sent to " ++ "backend" ++ " queue")
     = "backend".
Proof.
  split; [reflexivity |].
  apply EarlierFacts.backend_mention_wins. reflexivity.
Defined.

Lemma one_error_witness :
  let e := CaptureRejected (Some "Network Error") "t1" in
  let es := [CaptureClicked 2000 "t2"; SliderChanged "0.3";
             SliderReleased "t3"] in
  let w := step decimalToFixed initialWorld (CaptureClicked 1000 "t0") in
  entersTestMode e = true
  /\ forallb (fun e' => negb (isMounted e')) es = true
  /\ exists new,
       effects (steps decimalToFixed es (step decimalToFixed w e))
       = (effects (step decimalToFixed w e) ++ new)%list
       /\ existsb isHttp new = false.
Proof.
  split; [reflexivity |]. split; [reflexivity |].
  apply (one_error_stops_all_http decimalToFixed); reflexivity.
Defined.
